(** * photutils.profiles.core: radial profiles and curves of growth

    A shallow embedding of [ProfileBase], [CurveOfGrowth] and
    [RadialProfile] (src/photutils/profiles/core.py).

    Scalars.  The Python code is duck-typed over its numbers and runs on
    binary64 floats.  The embedding is written once over a scalar
    interface [Scalar] and has two instances:
    - [binary64]: Rocq's primitive floats, the numbers the code computes
      with; it is used to run the code on concrete inputs;
    - [exact]: the rationals [Q], the same code without rounding; the
      properties of the spec that speak of real quantities are proved
      there.

    Effects.  A computation returns the warnings it emitted together with
    a value or a raised exception ([Py]). *)

From Stdlib Require Import String Ascii ZArith QArith Qround Floats List Bool Lia Lqa.
Import ListNotations.

Set Warnings "-inexact-float".

(** ** Exceptions, warnings and the [Py] monad *)

Inductive exn : Type :=
| ValueError (msg : string)
| OverflowError (msg : string).

Inductive category : Type := RuntimeWarning | AstropyUserWarning.

Record warning : Type := Warning { w_category : category; w_message : string }.

Inductive outcome (X : Type) : Type :=
| Ok (x : X)
| Raise (e : exn).
Arguments Ok {X} x.
Arguments Raise {X} e.

Definition Py (X : Type) : Type := (list warning * outcome X)%type.

Definition ret {X} (x : X) : Py X := ([], Ok x).

Definition raise {X} (e : exn) : Py X := ([], Raise e).

Definition bind {X Y} (m : Py X) (f : X -> Py Y) : Py Y :=
  match m with
  | (w, Ok x) => let (w', r) := f x in (w ++ w', r)
  | (w, Raise e) => (w, Raise e)
  end.

Notation "x <- m ;; k" := (bind m (fun x => k))
  (at level 61, m at next level, right associativity).

(** [warnings.warn(msg, cat)]. *)
Definition warn (cat : category) (msg : string) : Py unit :=
  ([Warning cat msg], Ok tt).

Definition category_eqb (a b : category) : bool :=
  match a, b with
  | RuntimeWarning, RuntimeWarning => true
  | AstropyUserWarning, AstropyUserWarning => true
  | _, _ => false
  end.

(** [with warnings.catch_warnings(): warnings.simplefilter('ignore', cat); m] *)
Definition catch_warnings_ignore {X} (cat : category) (m : Py X) : Py X :=
  (filter (fun w => negb (category_eqb (w_category w) cat)) (fst m), snd m).

(** [try: m  except ValueError: h] *)
Definition try_except_ValueError {X} (m : Py X) (h : Py X) : Py X :=
  match m with
  | (w, Raise (ValueError _)) => let (w', r) := h in (w ++ w', r)
  | _ => m
  end.

Definition lift {X} (o : outcome X) : Py X := ([], o).

(** A warning that the filter of [profile] lets through. *)
Definition not_runtime (w : warning) : Prop := w_category w <> RuntimeWarning.

(** The loop [for x in l: out.append(f x)]. *)
Fixpoint for_each {X Y} (f : X -> Py Y) (l : list X) : Py (list Y) :=
  match l with
  | [] => ret []
  | x :: l' => y <- f x ;; ys <- for_each f l' ;; ret (y :: ys)
  end.

(** ** Scalars *)

Class Scalar (A : Type) : Type := {
  zero : A;
  of_int : Z -> A;                (* the number an [int] converts to *)
  add : A -> A -> A;
  sub : A -> A -> A;
  mul : A -> A -> A;
  div : A -> A -> A;
  eqb : A -> A -> bool;           (* [==] *)
  ltb : A -> A -> bool;           (* [<]  *)
  leb : A -> A -> bool;           (* [<=] *)
  isnan : A -> bool;
  floor : A -> outcome Z          (* [int(math.floor(x))] *)
}.

(** [numpy.sqrt] on one item. *)
Class Sqrt (A : Type) : Type := sqrt : A -> A.

(** *** binary64 *)

Module B64.

Definition floor (x : float) : outcome Z :=
  match Prim2SF x with
  | S754_zero _ => Ok 0%Z
  | S754_finite s m e =>
      let n := if s then Z.neg m else Z.pos m in
      Ok (if (0 <=? e)%Z then n * 2 ^ e else n / 2 ^ (- e))%Z
  | S754_infinity _ => Raise (OverflowError "cannot convert float infinity to integer")
  | S754_nan => Raise (ValueError "cannot convert float NaN to integer")
  end.

Definition of_int (n : Z) : float :=
  SF2Prim (binary_normalize prec emax n 0 false).

Definition isnan (x : float) : bool :=
  match Prim2SF x with S754_nan => true | _ => false end.

Definition isinf (x : float) : bool :=
  match Prim2SF x with S754_infinity _ => true | _ => false end.

End B64.

#[export] Instance binary64 : Scalar float := {|
  zero := 0%float;
  of_int := B64.of_int;
  add := PrimFloat.add;
  sub := PrimFloat.sub;
  mul := PrimFloat.mul;
  div := PrimFloat.div;
  eqb := PrimFloat.eqb;
  ltb := PrimFloat.ltb;
  leb := PrimFloat.leb;
  isnan := B64.isnan;
  floor := B64.floor
|}.

#[export] Instance binary64_sqrt : Sqrt float := PrimFloat.sqrt.

(** *** Exact rationals.  [Q] has no square root and no [Sqrt] instance:
    only [_fluxerr] and [profile_error] of [RadialProfile] call [sqrt]. *)

Module Exact.

Definition ltb (x y : Q) : bool := negb (Qle_bool y x).

End Exact.

#[export] Instance exact : Scalar Q := {|
  zero := 0%Q;
  of_int := inject_Z;
  add := Qplus;
  sub := Qminus;
  mul := Qmult;
  div := Qdiv;
  eqb := Qeq_bool;
  ltb := Exact.ltb;
  leb := Qle_bool;
  isnan := fun _ => false;
  floor := fun x => Ok (Qfloor x)
|}.

(** ** numpy on one-dimensional arrays (lists of scalars) *)

Section Numpy.
Context {A : Type} {SA : Scalar A}.

(** [y[-1] = v] *)
Definition set_last (y : list A) (v : A) : list A :=
  match y with
  | [] => []
  | _ => removelast y ++ [v]
  end.

(** [numpy.linspace(start, stop, num)] with the default [endpoint=True], as
    numpy computes it: [arange(0, num) * step + start] with
    [step = (stop - start) / (num - 1)], and the last item set to [stop]. *)
Definition linspace (start stop : A) (num : Z) : Py (list A) :=
  if (num <? 0)%Z then
    raise (ValueError "Number of samples must be non-negative.")
  else
    let dv := (num - 1)%Z in
    let delta := sub stop start in
    let y := map (fun i => of_int (Z.of_nat i)) (seq 0 (Z.to_nat num)) in
    let y :=
      if (0 <? dv)%Z then
        let step := div delta (of_int dv) in
        if eqb step zero then
          map (fun v => mul (div v (of_int dv)) delta) y
        else
          map (fun v => mul v step) y
      else
        map (fun v => mul v delta) y in
    let y := map (fun v => add v start) y in
    ret (if (1 <? num)%Z then set_last y stop else y).

(** [numpy.diff(a)]: [a[1:] - a[:-1]]. *)
Fixpoint diff (a : list A) : list A :=
  match a with
  | [] => []
  | x :: l => match l with
              | [] => []
              | y :: _ => sub y x :: diff l
              end
  end.

(** [a ** 2] *)
Definition square (a : list A) : list A := map (fun x => mul x x) a.

(** [a / b], item by item.  A zero divisor is signalled by a
    [RuntimeWarning] (numpy's default error state), at most once per kind
    and call; the other floating-point signals are not modelled. *)
Definition divide (a b : list A) : Py (list A) :=
  if negb (length a =? length b)%nat then
    raise (ValueError "operands could not be broadcast together")
  else
    let ab := combine a b in
    let by_zero := existsb (fun p => eqb (snd p) zero
                      && negb (eqb (fst p) zero) && negb (isnan (fst p))) ab in
    let invalid := existsb (fun p => eqb (snd p) zero && eqb (fst p) zero) ab in
    ((if by_zero then [Warning RuntimeWarning "divide by zero encountered in divide"] else [])
     ++ (if invalid then [Warning RuntimeWarning "invalid value encountered in divide"] else []),
     Ok (map (fun p => div (fst p) (snd p)) ab)).

(** [a / c] for a scalar [c] (broadcast over [a]). *)
Definition divide_scalar (a : list A) (c : A) : Py (list A) :=
  divide a (repeat c (length a)).

(** [numpy.maximum(a, b)]: NaN wins. *)
Definition maximum (a b : A) : A :=
  if leb b a || isnan a then a else b.

(** [a.max()] *)
Definition np_max (a : list A) : Py A :=
  match a with
  | [] => raise (ValueError
      "zero-size array to reduction operation maximum which has no identity")
  | x :: l => ret (fold_left maximum l x)
  end.

(** [a.sum()]: numpy adds the items from left to right for arrays of fewer
    than 8 items, and by blocks beyond; the grouping is immaterial in
    exact arithmetic. *)
Definition np_sum (a : list A) : A := fold_left add a zero.

(** [numpy.sqrt(a)]; a negative item is signalled by a [RuntimeWarning]. *)
Definition np_sqrt {RA : Sqrt A} (a : list A) : Py (list A) :=
  ((if existsb (fun x => ltb x zero) a
    then [Warning RuntimeWarning "invalid value encountered in sqrt"] else []),
   Ok (map sqrt a)).

(** A binary operation on two one-dimensional arrays, with numpy's
    broadcasting: item by item for equal lengths, an array of one item
    against every item of the other. *)
Definition broadcast (f : A -> A -> A) (a b : list A) : Py (list A) :=
  if (List.length a =? List.length b)%nat then
    ret (map (fun p => f (fst p) (snd p)) (combine a b))
  else
    match a, b with
    | [x], _ => ret (map (f x) b)
    | _, [y] => ret (map (fun x => f x y) a)
    | _, _ => raise (ValueError "operands could not be broadcast together")
    end.

(** [a - b] and [a + b] *)
Definition subtract (a b : list A) : Py (list A) := broadcast sub a b.

Definition np_add (a b : list A) : Py (list A) := broadcast add a b.

(** Item [i] of [linspace start stop num] before the end point is set. *)
Definition linspace_item (start stop : A) (num : Z) (i : nat) : A :=
  let dv := (num - 1)%Z in
  let delta := sub stop start in
  let v := of_int (Z.of_nat i) in
  add (if (0 <? dv)%Z then
         let step := div delta (of_int dv) in
         if eqb step zero then mul (div v (of_int dv)) delta else mul v step
       else mul v delta)
      start.

(** The items of [a / b]. *)
Definition quotients (a b : list A) : list A :=
  map (fun p => div (fst p) (snd p)) (combine a b).

(** The items of [a * b]. *)
Definition products (a b : list A) : list A :=
  map (fun p => mul (fst p) (snd p)) (combine a b).

End Numpy.

(** ** The profile classes *)

(** A numpy array: its shape, its items in row-major order and, for an
    astropy [Quantity], its unit. *)
Record ndarray (T : Type) : Type := {
  shape : list nat;
  items : list T;
  unit_of : option string
}.
Arguments shape {T} _.
Arguments items {T} _.
Arguments unit_of {T} _.

Definition shape_eqb (s t : list nat) : bool :=
  if list_eq_dec Nat.eq_dec s t then true else false.

Inductive profile_class : Type := CurveOfGrowth | RadialProfile.

Section Profiles.
Context {A : Type} {SA : Scalar A}.

(** Modelled from the spec: [process_quantities] of
    photutils.utils._quantity_helpers is not part of the sources; it
    detaches the single physical unit of the inputs and returns it. *)
Definition process_quantities (values : ndarray A * option (ndarray A))
  : (ndarray A * option (ndarray A)) * option string :=
  let strip := fun a : ndarray A =>
    {| shape := shape a; items := items a; unit_of := None |} in
  ((strip (fst values), option_map strip (snd values)), unit_of (fst values)).

Record ProfileBase : Type := {
  cls : profile_class;
  data : ndarray A;
  self_unit : option string;
  xycen : A * A;
  min_radius : A;
  max_radius : A;
  radius_step : A;
  error : option (ndarray A);
  mask : option (ndarray bool);
  method : string;
  subpixels : Z
}.

(** Modelled from the spec: the apertures of photutils.aperture are not
    part of the sources.  A region is a circle or an annulus; building a
    circle fails on a non-positive radius, building an annulus fails when
    its inner radius is non-positive. *)
Inductive aperture : Type :=
| Circle (positions : A * A) (r : A)
| Annulus (positions : A * A) (r_in r_out : A).

Definition CircularAperture (positions : A * A) (r : A) : Py aperture :=
  if leb r zero then raise (ValueError "'r' must be a positive scalar")
  else ret (Circle positions r).

Definition CircularAnnulus (positions : A * A) (r_in r_out : A) : Py aperture :=
  if leb r_in zero then raise (ValueError "'r_in' must be a positive scalar")
  else ret (Annulus positions r_in r_out).

(** The external photometry primitives, on this profile's [data],
    [error], [mask], [method] and [subpixels]: [do_photometry] gives
    [flux[0]] and [fluxerr[0]] (the latter is read only when [error] was
    given), [area_overlap] the covered area. *)
Variable do_photometry : ProfileBase -> aperture -> A * A.
Variable area_overlap : ProfileBase -> aperture -> A.

(** [ProfileBase.__init__] *)
Definition init (c : profile_class) (data0 : ndarray A) (xycen0 : A * A)
    (min_radius0 max_radius0 radius_step0 : A)
    (error0 : option (ndarray A)) (mask0 : option (ndarray bool))
    (method0 : string) (subpixels0 : Z) : Py ProfileBase :=
  let '((data1, error1), unit1) := process_quantities (data0, error0) in
  if ltb min_radius0 zero || ltb max_radius0 zero then
    raise (ValueError "min_radius and max_radius must be >= 0")
  else if leb max_radius0 min_radius0 then
    raise (ValueError "max_radius must be greater than min_radius")
  else if leb radius_step0 zero then
    raise (ValueError "radius_step must be > 0")
  else if match error1 with
          | Some e => negb (shape_eqb (shape e) (shape data1))
          | None => false
          end then
    raise (ValueError "error must have the same same as data")
  else if match mask0 with
          | Some m => negb (shape_eqb (shape m) (shape data1))
          | None => false
          end then
    raise (ValueError "mask must have the same same as data")
  else
    ret {| cls := c; data := data1; self_unit := unit1; xycen := xycen0;
           min_radius := min_radius0; max_radius := max_radius0;
           radius_step := radius_step0; error := error1; mask := mask0;
           method := method0; subpixels := subpixels0 |}.

(** [ProfileBase.radius] *)
Definition radius (self : ProfileBase) : Py (list A) :=
  nsteps <- lift (floor (div (sub (max_radius self) (min_radius self))
                             (radius_step self))) ;;
  let max_radius := add (min_radius self) (mul (of_int nsteps) (radius_step self)) in
  linspace (min_radius self) max_radius (nsteps + 1).

(** [CurveOfGrowth._circular_radii] and [RadialProfile._circular_radii] *)
Definition _circular_radii (self : ProfileBase) : Py (list A) :=
  match cls self with
  | CurveOfGrowth => radius self
  | RadialProfile =>
      let shift := div (radius_step self) (of_int 2) in
      let min_radius := sub (min_radius self) shift in
      let max_radius := add (max_radius self) shift in
      nsteps <- lift (floor (div (sub max_radius min_radius) (radius_step self))) ;;
      let max_radius := add min_radius (mul (of_int nsteps) (radius_step self)) in
      linspace min_radius max_radius (nsteps + 1)
  end.

(** [ProfileBase._circular_apertures]: one circle per radius, [None] for a
    radius [<= 0]. *)
Definition _circular_apertures (self : ProfileBase) : Py (list (option aperture)) :=
  radii <- _circular_radii self ;;
  for_each (fun radius =>
              if leb radius zero then ret None
              else aper <- CircularAperture (xycen self) radius ;; ret (Some aper))
           radii.

(** [ProfileBase._photometry]: the fluxes, flux errors and areas of the
    circular apertures; the flux errors are collected only when [error]
    was given.  The unit of the object, if any, is the unit of the first
    two; it stays in [self_unit self]. *)
Definition _photometry (self : ProfileBase) : Py (list A * list A * list A) :=
  apertures <- _circular_apertures self ;;
  let measured := map (fun aperture =>
      match aperture with
      | None => (zero, zero, zero)
      | Some ap => (fst (do_photometry self ap), snd (do_photometry self ap),
                    area_overlap self ap)
      end) apertures in
  let fluxes := map (fun m => fst (fst m)) measured in
  let fluxerrs := match error self with
                  | Some _ => map (fun m => snd (fst m)) measured
                  | None => []
                  end in
  let areas := map (fun m => snd m) measured in
  ret (fluxes, fluxerrs, areas).

(** [RadialProfile.apertures]: the annuli between consecutive radii; a
    circle where the annulus cannot be built. *)
Definition pairs (l : list A) : list (A * A) := combine l (tl l).

Definition RadialProfile_apertures (self : ProfileBase) : Py (list aperture) :=
  radii <- _circular_radii self ;;
  for_each (fun p =>
              try_except_ValueError
                (CircularAnnulus (xycen self) (fst p) (snd p))
                (CircularAperture (xycen self) (snd p)))
           (pairs radii).

(** [CurveOfGrowth.apertures] *)
Definition CurveOfGrowth_apertures (self : ProfileBase) : Py (list (option aperture)) :=
  _circular_apertures self.

(** [RadialProfile._flux] *)
Definition _flux (self : ProfileBase) : Py (list A) :=
  ph <- _photometry self ;; ret (diff (fst (fst ph))).

(** [RadialProfile._fluxerr] *)
Definition _fluxerr {RA : Sqrt A} (self : ProfileBase) : Py (list A) :=
  ph <- _photometry self ;; np_sqrt (diff (square (snd (fst ph)))).

(** [area] of either class *)
Definition area (self : ProfileBase) : Py (list A) :=
  ph <- _photometry self ;;
  match cls self with
  | CurveOfGrowth => ret (snd ph)
  | RadialProfile => ret (diff (snd ph))
  end.

(** [profile] of either class *)
Definition profile (self : ProfileBase) : Py (list A) :=
  match cls self with
  | CurveOfGrowth => ph <- _photometry self ;; ret (fst (fst ph))
  | RadialProfile =>
      catch_warnings_ignore RuntimeWarning
        (f <- _flux self ;; a <- area self ;; divide f a)
  end.

(** [profile_error] of either class.  The last line of
    [RadialProfile.profile_error] is cut off in the sources.
    Modelled from the spec: with an [error] array it returns
    [_fluxerr / area] under the same filter as [profile]. *)
Definition profile_error {RA : Sqrt A} (self : ProfileBase) : Py (list A) :=
  match cls self with
  | CurveOfGrowth => ph <- _photometry self ;; ret (snd (fst ph))
  | RadialProfile =>
      match error self with
      | None => _fluxerr self
      | Some _ =>
          catch_warnings_ignore RuntimeWarning
            (fe <- _fluxerr self ;; a <- area self ;; divide fe a)
      end
  end.

(** The two cached values [normalize] overwrites. *)
Record cache : Type := { c_profile : list A; c_profile_error : list A }.

Definition dq : string := String (ascii_of_nat 34) EmptyString.

(** [ProfileBase.normalize], on the cached [profile] and [profile_error]. *)
Definition normalize (method0 : string) (self : cache) : Py cache :=
  normalization <-
    (if String.eqb method0 "max" then np_max (c_profile self)
     else if String.eqb method0 "sum" then ret (np_sum (c_profile self))
     else raise (ValueError ("invalid method, must be " ++ dq ++ "peak" ++ dq
                             ++ " or " ++ dq ++ "integral" ++ dq))) ;;
  if eqb normalization zero then
    _ <- warn AstropyUserWarning
      "The profile cannot be normalized because the max or sum is zero." ;;
    ret self
  else
    p <- divide_scalar (c_profile self) normalization ;;
    pe <- divide_scalar (c_profile_error self) normalization ;;
    ret {| c_profile := p; c_profile_error := pe |}.

(** The circle of one boundary radius. *)
Definition circle_of (self : ProfileBase) (r : A) : option aperture :=
  if leb r zero then None else Some (Circle (xycen self) r).

(** What [_photometry] collects for the circle of one radius. *)
Definition measured_at (self : ProfileBase) (r : A) : A * A * A :=
  match circle_of self r with
  | None => (zero, zero, zero)
  | Some ap => (fst (do_photometry self ap), snd (do_photometry self ap),
                area_overlap self ap)
  end.


End Profiles.

(** ** Plotting the errors *)

(** Keyword arguments: a [dict] with [str] keys, in insertion order. *)
Section Kwargs.
Context {A : Type}.

Inductive kwvalue : Type :=
| KNum (x : A)
| KStr (s : string)
| KTuple (l : list A).

Definition kwargs : Type := list (string * kwvalue).

(** [k in d] *)
Definition contains (k : string) (d : kwargs) : bool :=
  existsb (fun kv => String.eqb (fst kv) k) d.

(** [d[k] = v]: the value of an existing key is replaced where it stands,
    a new key goes to the end. *)
Fixpoint setitem (k : string) (v : kwvalue) (d : kwargs) : kwargs :=
  match d with
  | [] => [(k, v)]
  | (k', v') :: d' =>
      if String.eqb k' k then (k', v) :: d' else (k', v') :: setitem k v d'
  end.

(** [d.update(d')] *)
Definition update (d d' : kwargs) : kwargs :=
  fold_left (fun acc kv => setitem (fst kv) (snd kv) acc) d' d.

End Kwargs.
Arguments kwvalue A : clear implicits.
Arguments kwargs A : clear implicits.

Section Plotting.
Context {A : Type} {SA : Scalar A} {RA : Sqrt A}.

(** matplotlib is external: the axes, the collection [fill_between]
    returns, the current axes [plt.gca()] and [ax.fill_between] itself. *)
Variable Axes PolyCollection : Type.
Variable gca : Axes.
Variable fill_between :
  Axes -> list A -> list A -> list A -> kwargs A -> Py PolyCollection.

(** The default [facecolor], [(0.5, 0.5, 0.5, 0.3)]. *)
Definition default_facecolor : kwvalue A :=
  let half := div (of_int 1) (of_int 2) in
  KTuple [half; half; half; div (of_int 3) (of_int 10)].

(** [ProfileBase.plot_error], on the values of the properties [radius],
    [profile] and [profile_error] of the object (computed on first use, or
    cached).  Arrays carry no unit here, so that [.value] is the
    identity. *)
Definition plot_error_on (radius0 profile0 profile_error0 : Py (list A))
    (ax : option Axes) (kwargs0 : kwargs A) : Py (option PolyCollection) :=
  pe <- profile_error0 ;;
  if (List.length pe =? 0)%nat then
    _ <- warn AstropyUserWarning "Errors were not input" ;;
    ret None
  else
    let ax := match ax with None => gca | Some a => a end in
    let kws :=
      if negb (contains "facecolor" kwargs0)
      then update [("facecolor"%string, default_facecolor)] kwargs0
      else kwargs0 in
    profile <- profile0 ;;
    ymin <- subtract profile pe ;;
    ymax <- np_add profile pe ;;
    radius <- radius0 ;;
    polycoll <- fill_between ax radius ymin ymax kws ;;
    ret (Some polycoll).

Variable do_photometry : @ProfileBase A -> @aperture A -> A * A.
Variable area_overlap : @ProfileBase A -> @aperture A -> A.

(** [plot_error] of an object whose profile has not been normalized. *)
Definition plot_error (self : ProfileBase) (ax : option Axes)
    (kwargs0 : kwargs A) : Py (option PolyCollection) :=
  plot_error_on (radius self)
                (profile do_photometry area_overlap self)
                (profile_error do_photometry area_overlap self)
                ax kwargs0.

End Plotting.

(** ** The vocabulary of the properties *)

Section Vocabulary.
Context {A : Type} {SA : Scalar A}.

(** An optional array was given and its shape is not the shape of [d]. *)
Definition shape_mismatch {T : Type} (a : option (ndarray T)) (d : ndarray A) : Prop :=
  exists e, a = Some e /\ shape e <> shape d.

(** The configuration errors of the spec, with the comparisons of the code. *)
Definition config_error (data0 : ndarray A) (min_radius0 max_radius0 radius_step0 : A)
    (error0 : option (ndarray A)) (mask0 : option (ndarray bool)) : Prop :=
  ltb min_radius0 zero = true \/ ltb max_radius0 zero = true
  \/ leb max_radius0 min_radius0 = true
  \/ leb radius_step0 zero = true
  \/ shape_mismatch error0 data0 \/ shape_mismatch mask0 data0.

(** The constant [normalize] divides by: [max(profile)] or [sum(profile)]. *)
Inductive normalization_of (self : @cache A) : string -> A -> Prop :=
| norm_max x l :
    c_profile self = x :: l ->
    normalization_of self "max" (fold_left maximum l x)
| norm_sum :
    normalization_of self "sum" (np_sum (c_profile self)).

Definition zero_warning : warning :=
  Warning AstropyUserWarning
    "The profile cannot be normalized because the max or sum is zero.".

(** The keywords [plot_error] hands to [fill_between]: the caller's, after
    the default [facecolor] unless the caller gave one. *)
Definition facecolor_first (kwargs0 : kwargs A) : kwargs A :=
  if contains "facecolor" kwargs0 then kwargs0
  else ("facecolor"%string, default_facecolor) :: kwargs0.

Definition no_errors_warning : warning :=
  Warning AstropyUserWarning "Errors were not input".

End Vocabulary.

(** What [int(math.floor(x))] raises on a NaN and on an infinity. *)
Definition nan_error : exn := ValueError "cannot convert float NaN to integer".

Definition overflow_error : exn :=
  OverflowError "cannot convert float infinity to integer".

(** A binary64 number that is an infinity or a NaN. *)
Definition nonfinite (x : float) : bool := B64.isinf x || B64.isnan x.

(** ** Concrete inputs *)

Module Examples.

(** A 2 x 2 image; the profile functions only hand it to the photometry
    primitives. *)
Definition image {A : Type} {SA : Scalar A} : ndarray A :=
  {| shape := [2%nat; 2%nat];
     items := [of_int 1; of_int 2; of_int 3; of_int 4];
     unit_of := None |}.

(** The object [cls(image, (0, 0), lo, hi, step)]. *)
Definition new {A : Type} {SA : Scalar A} (c : profile_class) (lo hi step : A)
  : @ProfileBase A :=
  {| cls := c; data := image; self_unit := None; xycen := (zero, zero);
     min_radius := lo; max_radius := hi; radius_step := step;
     error := None; mask := None; method := "exact"; subpixels := 5 |}.

(** The same object with an [error] array. *)
Definition new_with_error {A : Type} {SA : Scalar A} (c : profile_class)
    (lo hi step : A) : @ProfileBase A :=
  {| cls := c; data := image; self_unit := None; xycen := (zero, zero);
     min_radius := lo; max_radius := hi; radius_step := step;
     error := Some image; mask := None; method := "exact"; subpixels := 5 |}.

(** A photometry primitive for the examples: flux [r * r] and flux error
    [r] in a circle of radius [r]. *)
Definition flux_r2 {A : Type} {SA : Scalar A}
    (self : @ProfileBase A) (ap : @aperture A) : A * A :=
  match ap with
  | Circle _ r => (mul r r, r)
  | Annulus _ r_in r_out => (sub (mul r_out r_out) (mul r_in r_in), r_out)
  end.

(** An area primitive for the examples: everything beyond radius 1 is
    masked, so that the covered area stops growing there. *)
Definition area_capped {A : Type} {SA : Scalar A}
    (self : @ProfileBase A) (ap : @aperture A) : A :=
  match ap with
  | Circle _ r => if ltb r (of_int 1) then mul r r else of_int 1
  | Annulus _ r_in r_out => zero
  end.

(** An area primitive without mask: [r * r]. *)
Definition area_r2 {A : Type} {SA : Scalar A}
    (self : @ProfileBase A) (ap : @aperture A) : A :=
  match ap with
  | Circle _ r => mul r r
  | Annulus _ r_in r_out => sub (mul r_out r_out) (mul r_in r_in)
  end.

(** [RadialProfile(data, xycen, 0, 2, 1)] on binary64, with and without
    an [error] array: boundaries -0.5, 0.5, 1.5, 2.5. *)
Definition rp : @ProfileBase float := new RadialProfile 0%float 2%float 1%float.
Definition rp_err : @ProfileBase float :=
  new_with_error RadialProfile 0%float 2%float 1%float.

Definition boundaries : list float := [-0.5; 0.5; 1.5; 2.5]%float.

(** The same profile in exact arithmetic, [max_radius = 3]. *)
Definition rq : @ProfileBase Q := new RadialProfile 0%Q 3%Q 1%Q.

End Examples.

(** * Properties *)

(** ** Construction ([ProfileBase.__init__]) *)

Section InitSpec.
Context {A : Type} {SA : Scalar A}.

Lemma shape_eqb_false (s t : list nat) : shape_eqb s t = false <-> s <> t.
Proof.
  unfold shape_eqb. destruct (list_eq_dec Nat.eq_dec s t); split; intro H;
    congruence.
Qed.

Lemma shape_eqb_true (s t : list nat) : shape_eqb s t = true <-> s = t.
Proof.
  unfold shape_eqb. destruct (list_eq_dec Nat.eq_dec s t); split; intro H;
    congruence.
Qed.

Lemma shape_check_spec {T : Type} (a : option (ndarray T)) (d : ndarray A) :
  match a with
  | Some e => negb (shape_eqb (shape e) (shape d))
  | None => false
  end = true <-> shape_mismatch a d.
Proof.
  unfold shape_mismatch. destruct a as [e|]; split.
  - intro H. exists e. split; [reflexivity|].
    apply shape_eqb_false. now apply negb_true_iff.
  - intros [e' [E N]]. injection E as <-.
    apply negb_true_iff. now apply shape_eqb_false.
  - discriminate.
  - intros [e' [E _]]. discriminate.
Qed.

(** The error array [__init__] checks is the given one without its unit:
    the shape is the same. *)
Lemma stripped_shape_mismatch (error0 : option (ndarray A)) (d : ndarray A) :
  shape_mismatch
    (option_map (fun a : ndarray A =>
       {| shape := shape a; items := items a; unit_of := None |}) error0) d
  <-> shape_mismatch error0 d.
Proof.
  unfold shape_mismatch. destruct error0 as [e|]; simpl; split.
  - intros [e' [E N]]. injection E as <-. exists e. now split.
  - intros [e' [E N]]. injection E as <-. eexists. split; [reflexivity|exact N].
  - intros [e' [E _]]. discriminate.
  - intros [e' [E _]]. discriminate.
Qed.

(** A branch of [__init__] that raises: the configuration error holds and
    no object is returned. *)
Ltac raised_config_error :=
  split; split;
  [ intros _; tauto
  | intros _; eexists; reflexivity
  | let H := fresh in intros [? [H _]]; discriminate H
  | tauto ].

(** C8.  Constructing a profile raises a [ValueError] exactly when
    [min_radius] or [max_radius] is negative, or [min_radius >= max_radius],
    or [radius_step <= 0], or a given [error] or [mask] array has not the
    shape of [data]; in every other case the object is built, with the
    radii as given, and nothing is truncated or broadcast. *)
Theorem init_raises_iff_config_error
    (c : profile_class) (data0 : ndarray A) (xycen0 : A * A)
    (min_radius0 max_radius0 radius_step0 : A)
    (error0 : option (ndarray A)) (mask0 : option (ndarray bool))
    (method0 : string) (subpixels0 : Z) :
  let r := init c data0 xycen0 min_radius0 max_radius0 radius_step0
                error0 mask0 method0 subpixels0 in
  ((exists msg, r = ([], Raise (ValueError msg)))
   <-> config_error data0 min_radius0 max_radius0 radius_step0 error0 mask0)
  /\
  ((exists self, r = ([], Ok self)
      /\ cls self = c
      /\ min_radius self = min_radius0 /\ max_radius self = max_radius0
      /\ radius_step self = radius_step0
      /\ shape (data self) = shape data0 /\ items (data self) = items data0
      /\ option_map shape (error self) = option_map shape error0
      /\ option_map items (error self) = option_map items error0
      /\ mask self = mask0)
   <-> ~ config_error data0 min_radius0 max_radius0 radius_step0 error0 mask0).
Proof.
  cbv zeta. unfold init, process_quantities, config_error. cbn [fst snd].
  pose proof (stripped_shape_mismatch error0 data0) as HE.
  pose proof (shape_check_spec
    (option_map (fun a : ndarray A =>
       {| shape := shape a; items := items a; unit_of := None |}) error0)
    {| shape := shape data0; items := items data0; unit_of := None |}) as HEc.
  pose proof (shape_check_spec mask0
    {| shape := shape data0; items := items data0; unit_of := None |}) as HMc.
  unfold shape_mismatch in *. cbn [shape] in *.
  destruct (ltb min_radius0 zero) eqn:E1; cbn [orb].
  { raised_config_error. }
  destruct (ltb max_radius0 zero) eqn:E2.
  { raised_config_error. }
  destruct (leb max_radius0 min_radius0) eqn:E3.
  { raised_config_error. }
  destruct (leb radius_step0 zero) eqn:E4.
  { raised_config_error. }
  match goal with |- context [if ?b then _ else _] => destruct b eqn:E5 end.
  { assert (HX : exists e, error0 = Some e /\ shape e <> shape data0)
      by (apply HE, HEc; reflexivity).
    raised_config_error. }
  match goal with |- context [if ?b then _ else _] => destruct b eqn:E6 end.
  { assert (HX : exists e, mask0 = Some e /\ shape e <> shape data0)
      by (apply HMc; reflexivity).
    raised_config_error. }
  assert (N5 : ~ exists e, error0 = Some e /\ shape e <> shape data0).
  { intro X. apply HE in X. apply HEc in X. congruence. }
  assert (N6 : ~ exists e, mask0 = Some e /\ shape e <> shape data0).
  { intro X. apply HMc in X. congruence. }
  split; split.
  - intros [msg H]. discriminate.
  - intros [H|[H|[H|[H|[H|H]]]]]; try discriminate; contradiction.
  - intros _ [H|[H|[H|[H|[H|H]]]]]; try discriminate; contradiction.
  - intros _. eexists. split; [reflexivity|]. cbn.
    repeat split; destruct error0; reflexivity.
Qed.

End InitSpec.

(** ** Normalization ([ProfileBase.normalize]) *)

Section NormalizeSpec.
Context {A : Type} {SA : Scalar A}.

Lemma existsb_broadcast (f : A * A -> bool) (a : list A) (c : A) :
  (forall x, f (x, c) = false) ->
  existsb f (combine a (repeat c (List.length a))) = false.
Proof.
  intro Hf. induction a as [|x a IH]; [reflexivity|].
  cbn [List.length repeat combine existsb]. now rewrite Hf, IH.
Qed.

Lemma map_div_broadcast (a : list A) (c : A) :
  map (fun p : A * A => div (fst p) (snd p))
      (combine a (repeat c (List.length a)))
  = map (fun v => div v c) a.
Proof.
  induction a as [|x a IH]; [reflexivity|].
  cbn [List.length repeat combine map fst snd]. now rewrite IH.
Qed.

Lemma divide_scalar_nonzero (a : list A) (c : A) :
  eqb c zero = false ->
  divide_scalar a c = ([], Ok (map (fun v => div v c) a)).
Proof.
  intro Hc. unfold divide_scalar, divide.
  rewrite repeat_length, Nat.eqb_refl. cbn [negb].
  rewrite map_div_broadcast.
  rewrite !existsb_broadcast; [reflexivity| |];
    intro x; cbn [fst snd]; now rewrite Hc.
Qed.

Lemma normalize_invalid (method0 : string) (self : @cache A) :
  method0 <> "max"%string -> method0 <> "sum"%string ->
  exists msg, normalize method0 self = ([], Raise (ValueError msg)).
Proof.
  intros Hm Hs. unfold normalize.
  apply String.eqb_neq in Hm, Hs. rewrite Hm, Hs.
  eexists. reflexivity.
Qed.

Lemma normalize_zero (method0 : string) (self : @cache A) (c : A) :
  normalization_of self method0 c -> eqb c zero = true ->
  normalize method0 self = ([zero_warning], Ok self).
Proof.
  intros Hn Hz. unfold normalize.
  destruct Hn as [x l Hp|]; cbn [String.eqb Ascii.eqb Bool.eqb].
  - rewrite Hp. cbn [np_max ret bind]. rewrite Hz. reflexivity.
  - cbn [ret bind]. rewrite Hz. reflexivity.
Qed.

Lemma normalize_nonzero (method0 : string) (self : @cache A) (c : A) :
  normalization_of self method0 c -> eqb c zero = false ->
  normalize method0 self =
    ([], Ok {| c_profile := map (fun v => div v c) (c_profile self);
               c_profile_error := map (fun v => div v c) (c_profile_error self) |}).
Proof.
  intros Hn Hz. unfold normalize.
  destruct Hn as [x l Hp|]; cbn [String.eqb Ascii.eqb Bool.eqb].
  - rewrite Hp. cbn [np_max ret bind]. rewrite Hz.
    rewrite !divide_scalar_nonzero by exact Hz.
    cbn [ret bind app]. now rewrite <- Hp.
  - cbn [ret bind]. rewrite Hz.
    rewrite !divide_scalar_nonzero by exact Hz.
    reflexivity.
Qed.

(** C7.  [normalize] raises a [ValueError] for every method other than
    'max' and 'sum'.  When the normalization constant is zero it warns and
    leaves [profile] and [profile_error] as they are; otherwise it
    replaces both by the originals divided by the constant. *)
Theorem normalize_spec (method0 : string) (self : @cache A) :
  (method0 <> "max"%string -> method0 <> "sum"%string ->
     exists msg, normalize method0 self = ([], Raise (ValueError msg)))
  /\
  (forall c, normalization_of self method0 c -> eqb c zero = true ->
     normalize method0 self = ([zero_warning], Ok self))
  /\
  (forall c, normalization_of self method0 c -> eqb c zero = false ->
     normalize method0 self =
       ([], Ok {| c_profile := map (fun v => div v c) (c_profile self);
                  c_profile_error := map (fun v => div v c) (c_profile_error self) |})).
Proof.
  split; [|split].
  - apply normalize_invalid.
  - apply normalize_zero.
  - apply normalize_nonzero.
Qed.

End NormalizeSpec.

(** ** The monad and the numpy helpers *)

Lemma bind_Ok_inv {X Y : Type} (m : Py X) (f : X -> Py Y) (w : list warning) (y : Y) :
  bind m f = (w, Ok y) ->
  exists w1 x w2, m = (w1, Ok x) /\ f x = (w2, Ok y) /\ w = w1 ++ w2.
Proof.
  unfold bind. destruct m as [w1 [x|e]]; [|discriminate].
  destruct (f x) as [w2 r] eqn:E. intro H. injection H as <- ->.
  now exists w1, x, w2.
Qed.

Lemma bind_Ok {X Y : Type} (m : Py X) (f : X -> Py Y) w1 x w2 (r : outcome Y) :
  m = (w1, Ok x) -> f x = (w2, r) -> bind m f = (w1 ++ w2, r).
Proof. intros -> E. unfold bind. now rewrite E. Qed.

Lemma for_each_pure {X Y : Type} (f : X -> Py Y) (g : X -> Y) (l : list X) :
  Forall (fun x => f x = ([], Ok (g x))) l ->
  for_each f l = ([], Ok (map g l)).
Proof.
  induction 1 as [|x l Hx _ IH]; [reflexivity|].
  cbn [for_each map]. unfold bind at 1. rewrite Hx.
  unfold bind at 1. rewrite IH. reflexivity.
Qed.

Lemma catch_warnings_ignore_spec {X : Type} (m : Py X) :
  Forall not_runtime (fst (catch_warnings_ignore RuntimeWarning m))
  /\ snd (catch_warnings_ignore RuntimeWarning m) = snd m.
Proof.
  split; [|reflexivity]. unfold catch_warnings_ignore. cbn [fst].
  apply Forall_forall. intros w Hw. apply filter_In in Hw as [_ Hw].
  unfold not_runtime. destruct (w_category w); [discriminate|discriminate].
Qed.

Section NumpyFacts.
Context {A : Type} {SA : Scalar A}.

Lemma diff_length (a : list A) : List.length (diff a) = (List.length a - 1)%nat.
Proof.
  induction a as [|x l IH]; [reflexivity|].
  destruct l as [|y l]; [reflexivity|].
  change (diff (x :: y :: l)) with (sub y x :: diff (y :: l)).
  cbn [List.length] in *. rewrite IH. lia.
Qed.

Lemma diff_nth (a : list A) (i : nat) (d : A) :
  (i < List.length (diff a))%nat ->
  nth i (diff a) d = sub (nth (S i) a d) (nth i a d).
Proof.
  revert i. induction a as [|x l IH]; intros i Hi; [cbn in Hi; lia|].
  destruct l as [|y l]; [cbn in Hi; lia|].
  change (diff (x :: y :: l)) with (sub y x :: diff (y :: l)) in *.
  destruct i as [|i]; [reflexivity|].
  cbn [nth List.length] in *. apply IH. lia.
Qed.

Lemma quotients_length (a b : list A) :
  List.length a = List.length b -> List.length (quotients a b) = List.length a.
Proof.
  intro H. unfold quotients. rewrite length_map, length_combine. lia.
Qed.

Lemma quotients_nth (a b : list A) (i : nat) (d : A) :
  List.length a = List.length b -> (i < List.length a)%nat ->
  nth i (quotients a b) d = div (nth i a d) (nth i b d).
Proof.
  intros H Hi. unfold quotients.
  rewrite (nth_indep _ d (div (fst (d, d)) (snd (d, d))))
    by (rewrite length_map, length_combine; lia).
  rewrite (map_nth (fun p => div (fst p) (snd p))).
  now rewrite combine_nth.
Qed.

Lemma divide_Ok (a b : list A) :
  List.length a = List.length b ->
  exists w, divide a b = (w, Ok (quotients a b))
            /\ Forall (fun x => w_category x = RuntimeWarning) w.
Proof.
  intro H. unfold divide. rewrite H, Nat.eqb_refl. cbn [negb].
  eexists. split; [reflexivity|].
  apply Forall_app. split.
  - destruct (existsb _ _); repeat constructor.
  - destruct (existsb _ _); repeat constructor.
Qed.

End NumpyFacts.

(** ** The radial profile and its error *)

Section RadialFacts.
Context {A : Type} {SA : Scalar A}.
Variable do_photometry : @ProfileBase A -> @aperture A -> A * A.
Variable area_overlap : @ProfileBase A -> @aperture A -> A.

Local Abbreviation photometry := (_photometry do_photometry area_overlap).

(** The guard of [_circular_apertures] is the failure condition of
    [CircularAperture]: once the radii are there, the apertures are built. *)
Lemma circular_apertures_total (self : ProfileBase) w b :
  _circular_radii self = (w, Ok b) ->
  _circular_apertures self = (w, Ok (map (circle_of self) b)).
Proof.
  intro H. unfold _circular_apertures.
  rewrite <- (app_nil_r w). eapply bind_Ok; [exact H|].
  apply for_each_pure. apply Forall_forall. intros r _.
  unfold circle_of, CircularAperture.
  destruct (leb r zero); reflexivity.
Qed.

(** [_photometry] returns once the radii are there: one flux and one area
    per radius. *)
Lemma photometry_total (self : ProfileBase) w b :
  _circular_radii self = (w, Ok b) ->
  exists cumflux cumfluxerr cumarea,
    photometry self = (w, Ok (cumflux, cumfluxerr, cumarea))
    /\ List.length cumflux = List.length b.
Proof.
  intro H. unfold _photometry.
  rewrite (circular_apertures_total self w b H). cbn [bind ret].
  rewrite app_nil_r. do 3 eexists. split; [reflexivity|].
  now rewrite !length_map.
Qed.

(** The three sequences of [_photometry] are aligned; the flux errors are
    empty when no [error] was given. *)
Lemma photometry_lengths (self : ProfileBase) w cumflux cumfluxerr cumarea :
  photometry self = (w, Ok (cumflux, cumfluxerr, cumarea)) ->
  List.length cumarea = List.length cumflux
  /\ (error self = None -> cumfluxerr = [])
  /\ (error self <> None -> List.length cumfluxerr = List.length cumflux).
Proof.
  unfold _photometry. intro H.
  apply bind_Ok_inv in H as (w1 & aps & w2 & _ & H & _).
  unfold ret in H. injection H as _ <- <- <-.
  rewrite !length_map. split; [reflexivity|]. split.
  - intros ->. reflexivity.
  - intro N. destruct (error self); [now rewrite !length_map|congruence].
Qed.

Lemma radial_flux (self : ProfileBase) w cumflux cumfluxerr cumarea :
  photometry self = (w, Ok (cumflux, cumfluxerr, cumarea)) ->
  _flux do_photometry area_overlap self = (w, Ok (diff cumflux)).
Proof.
  intro H. unfold _flux. rewrite (bind_Ok _ _ _ _ [] _ H eq_refl).
  now rewrite app_nil_r.
Qed.

Lemma radial_area (self : ProfileBase) w cumflux cumfluxerr cumarea :
  cls self = RadialProfile ->
  photometry self = (w, Ok (cumflux, cumfluxerr, cumarea)) ->
  area do_photometry area_overlap self = (w, Ok (diff cumarea)).
Proof.
  intros C H. unfold area.
  erewrite bind_Ok; [|exact H|rewrite C; reflexivity].
  now rewrite app_nil_r.
Qed.

(** [profile] of a [RadialProfile]: the quotients of the first differences,
    and no [RuntimeWarning] gets out. *)
Lemma radial_profile_values (self : ProfileBase) w cumflux cumfluxerr cumarea :
  cls self = RadialProfile ->
  photometry self = (w, Ok (cumflux, cumfluxerr, cumarea)) ->
  exists ws,
    profile do_photometry area_overlap self
      = (ws, Ok (quotients (diff cumflux) (diff cumarea)))
    /\ Forall not_runtime ws.
Proof.
  intros C H. unfold profile. rewrite C.
  destruct (photometry_lengths _ _ _ _ _ H) as (L & _ & _).
  destruct (divide_Ok (diff cumflux) (diff cumarea)) as (wd & Hd & _).
  { rewrite !diff_length. now rewrite L. }
  match goal with |- context [catch_warnings_ignore _ ?m] => set (body := m) end.
  assert (Hb : body = (w ++ w ++ wd, Ok (quotients (diff cumflux) (diff cumarea)))).
  { unfold body.
    eapply bind_Ok; [eapply radial_flux; exact H|].
    eapply bind_Ok; [eapply radial_area; [exact C|exact H]|exact Hd]. }
  destruct (catch_warnings_ignore_spec body) as [Hf Hs].
  destruct (catch_warnings_ignore RuntimeWarning body) as [ws r] eqn:E.
  cbn [fst snd] in Hf, Hs. rewrite Hb in Hs. cbn [snd] in Hs. subst r.
  exists ws. now split.
Qed.

End RadialFacts.

(** *** Division by zero in binary64 *)

Lemma b64_zero_spec (d : float) :
  PrimFloat.eqb d 0 = true -> exists s, Prim2SF d = S754_zero s.
Proof.
  rewrite FloatAxioms.eqb_spec. change (Prim2SF 0) with (S754_zero false).
  destruct (Prim2SF d) as [s| s | | s m e]; cbn; try discriminate.
  - intros _. now exists s.
  - destruct s; discriminate.
  - destruct s; discriminate.
Qed.

Lemma b64_div_zero (x d : float) :
  PrimFloat.eqb d 0 = true ->
  B64.isinf (x / d) = true \/ B64.isnan (x / d) = true.
Proof.
  intro H. destruct (b64_zero_spec d H) as [s Hs].
  unfold B64.isinf, B64.isnan. rewrite FloatAxioms.div_spec, Hs.
  destruct (Prim2SF x) as [sx| sx | | sx m e]; cbn; auto.
Qed.

(** C1.  For a [RadialProfile] on binary64, once the boundary radii are
    built, [_photometry] and [profile] return (no exception, no
    [RuntimeWarning]); [profile] has one value per pair of consecutive
    boundary apertures: the first difference of the cumulative flux
    divided by the first difference of the cumulative area; where that
    area difference is zero the value is an infinity or a NaN. *)
Theorem radial_profile_flux_over_area
    (do_photometry : @ProfileBase float -> @aperture float -> float * float)
    (area_overlap : @ProfileBase float -> @aperture float -> float)
    (self : @ProfileBase float) (w : list warning) (b : list float) :
  cls self = RadialProfile ->
  _circular_radii self = (w, Ok b) ->
  exists cumflux cumfluxerr cumarea ws p,
    _photometry do_photometry area_overlap self
      = (w, Ok (cumflux, cumfluxerr, cumarea))
    /\ profile do_photometry area_overlap self = (ws, Ok p)
    /\ Forall not_runtime ws
    /\ List.length p = (List.length b - 1)%nat
    /\ forall i, (i < List.length p)%nat ->
         let flux_i := (nth (S i) cumflux 0 - nth i cumflux 0)%float in
         let area_i := (nth (S i) cumarea 0 - nth i cumarea 0)%float in
         nth i p 0%float = (flux_i / area_i)%float
         /\ (PrimFloat.eqb area_i 0 = true ->
             B64.isinf (nth i p 0%float) = true
             \/ B64.isnan (nth i p 0%float) = true).
Proof.
  intros C Hb.
  destruct (photometry_total do_photometry area_overlap self w b Hb)
    as (cumflux & cumfluxerr & cumarea & H & Lb).
  destruct (radial_profile_values _ _ _ _ _ _ _ C H) as (ws & Hp & Hw).
  destruct (photometry_lengths _ _ _ _ _ _ _ H) as (L & _ & _).
  assert (Ld : List.length (diff cumflux) = List.length (diff cumarea))
    by (rewrite !diff_length; now rewrite L).
  exists cumflux, cumfluxerr, cumarea, ws, (quotients (diff cumflux) (diff cumarea)).
  split; [exact H|]. split; [exact Hp|]. split; [exact Hw|].
  rewrite (quotients_length _ _ Ld).
  split; [rewrite diff_length; now rewrite Lb|].
  intros i Hi. cbv zeta.
  assert (E : nth i (quotients (diff cumflux) (diff cumarea)) 0%float
              = ((nth (S i) cumflux 0 - nth i cumflux 0)
                 / (nth (S i) cumarea 0 - nth i cumarea 0))%float).
  { rewrite (quotients_nth _ _ _ _ Ld Hi).
    rewrite !diff_nth by (rewrite <- ?Ld; exact Hi). reflexivity. }
  split; [exact E|]. intro Hz. rewrite E. now apply b64_div_zero.
Qed.

Section RadialErrorFacts.
Context {A : Type} {SA : Scalar A} {RA : Sqrt A}.
Variable do_photometry : @ProfileBase A -> @aperture A -> A * A.
Variable area_overlap : @ProfileBase A -> @aperture A -> A.

Lemma np_sqrt_Ok (a : list A) :
  exists w, np_sqrt a = (w, Ok (map sqrt a)).
Proof. unfold np_sqrt. eexists. reflexivity. Qed.

Lemma radial_fluxerr (self : ProfileBase) w cumflux cumfluxerr cumarea :
  _photometry do_photometry area_overlap self
    = (w, Ok (cumflux, cumfluxerr, cumarea)) ->
  exists w', _fluxerr do_photometry area_overlap self
             = (w ++ w', Ok (map sqrt (diff (square cumfluxerr)))).
Proof.
  intro H. unfold _fluxerr.
  destruct (np_sqrt_Ok (diff (square cumfluxerr))) as [w' Hs].
  exists w'. eapply bind_Ok; [exact H|exact Hs].
Qed.

(** C2.  For a [RadialProfile], once the boundary radii are built: with
    an [error] array, [profile_error] returns (no exception, no
    [RuntimeWarning]) for every bin the square root of the difference of
    the squared cumulative flux errors, divided by the area of the bin;
    without an [error] array it returns [_fluxerr] itself, the square
    roots of the differences with no division by the area (the sequence
    is then empty). *)
Theorem radial_profile_error_spec
    (self : ProfileBase) (w : list warning) (b : list A) :
  cls self = RadialProfile ->
  _circular_radii self = (w, Ok b) ->
  exists cumflux cumfluxerr cumarea,
    _photometry do_photometry area_overlap self
      = (w, Ok (cumflux, cumfluxerr, cumarea))
    /\
    (error self <> None ->
       exists ws pe,
         profile_error do_photometry area_overlap self = (ws, Ok pe)
         /\ Forall not_runtime ws
         /\ List.length pe = (List.length b - 1)%nat
         /\ forall i d, (i < List.length pe)%nat ->
              let fluxerr_i :=
                sqrt (sub (mul (nth (S i) cumfluxerr d) (nth (S i) cumfluxerr d))
                          (mul (nth i cumfluxerr d) (nth i cumfluxerr d))) in
              let area_i := sub (nth (S i) cumarea d) (nth i cumarea d) in
              nth i pe d = div fluxerr_i area_i)
    /\
    (error self = None ->
       profile_error do_photometry area_overlap self
         = _fluxerr do_photometry area_overlap self
       /\ (exists ws, _fluxerr do_photometry area_overlap self
                      = (ws, Ok (map sqrt (diff (square cumfluxerr)))))
       /\ cumfluxerr = []).
Proof.
  intros C Hb.
  destruct (photometry_total do_photometry area_overlap self w b Hb)
    as (cumflux & cumfluxerr & cumarea & H & Lb).
  exists cumflux, cumfluxerr, cumarea. split; [exact H|].
  destruct (photometry_lengths _ _ _ _ _ _ _ H) as (L & Lnone & Lsome).
  destruct (radial_fluxerr _ _ _ _ _ H) as [w' Hfe].
  split.
  - intro N. specialize (Lsome N).
    unfold profile_error. rewrite C.
    destruct (error self) as [e|]; [|congruence].
    set (fe := map sqrt (diff (square cumfluxerr))) in *.
    assert (Lfe : List.length fe = List.length (diff cumarea)).
    { unfold fe, square. rewrite length_map, !diff_length, length_map. lia. }
    destruct (divide_Ok fe (diff cumarea) Lfe) as (wd & Hd & _).
    match goal with |- context [catch_warnings_ignore _ ?m] => set (body := m) end.
    assert (Hbody : body = ((w ++ w') ++ w ++ wd, Ok (quotients fe (diff cumarea)))).
    { unfold body. eapply bind_Ok; [exact Hfe|].
      eapply bind_Ok; [eapply radial_area; [exact C|exact H]|exact Hd]. }
    destruct (catch_warnings_ignore_spec body) as [Hf Hs].
    destruct (catch_warnings_ignore RuntimeWarning body) as [ws r] eqn:E.
    cbn [fst snd] in Hf, Hs. rewrite Hbody in Hs. cbn [snd] in Hs. subst r.
    exists ws, (quotients fe (diff cumarea)).
    split; [reflexivity|]. split; [exact Hf|].
    rewrite (quotients_length _ _ Lfe).
    split; [rewrite Lfe, diff_length; lia|].
    intros i d Hi. cbv zeta.
    rewrite (quotients_nth _ _ _ _ Lfe Hi).
    rewrite diff_nth by (rewrite <- Lfe; exact Hi).
    f_equal. unfold fe.
    rewrite (nth_indep _ d (sqrt d)) by exact Hi.
    rewrite map_nth. f_equal.
    rewrite diff_nth by (unfold fe in Hi; now rewrite length_map in Hi).
    unfold square.
    assert (Hi' : (S i < List.length cumfluxerr)%nat).
    { unfold fe, square in Hi.
      rewrite length_map, diff_length, length_map in Hi. lia. }
    rewrite !(nth_indep (map _ cumfluxerr) d (mul d d))
      by (rewrite length_map; lia).
    now rewrite !(map_nth (fun x => mul x x)).
  - intro N. unfold profile_error. rewrite C, N.
    split; [reflexivity|]. split; [eexists; exact Hfe|]. now apply Lnone.
Qed.

End RadialErrorFacts.

(** ** The grids *)

Section LinspaceFacts.
Context {A : Type} {SA : Scalar A}.

Lemma set_last_snoc (l : list A) (a v : A) : set_last (l ++ [a]) v = l ++ [v].
Proof.
  unfold set_last. rewrite removelast_last.
  destruct l; reflexivity.
Qed.

Lemma linspace_eq (start stop : A) (num : Z) :
  (0 <= num)%Z ->
  linspace start stop num =
    ret (if (1 <? num)%Z
         then map (linspace_item start stop num) (seq 0 (Z.to_nat num - 1)) ++ [stop]
         else map (linspace_item start stop num) (seq 0 (Z.to_nat num))).
Proof.
  intro Hn. unfold linspace.
  destruct (num <? 0)%Z eqn:E; [apply Z.ltb_lt in E; lia|]. f_equal.
  assert (Hy : forall l,
    map (fun v => add v start)
      (if (0 <? num - 1)%Z
       then if eqb (div (sub stop start) (of_int (num - 1))) zero
            then map (fun v => mul (div v (of_int (num - 1))) (sub stop start))
                     (map (fun i => of_int (Z.of_nat i)) l)
            else map (fun v => mul v (div (sub stop start) (of_int (num - 1))))
                     (map (fun i => of_int (Z.of_nat i)) l)
       else map (fun v => mul v (sub stop start))
                (map (fun i => of_int (Z.of_nat i)) l))
    = map (linspace_item start stop num) l).
  { intro l. unfold linspace_item. cbv zeta.
    destruct (0 <? num - 1)%Z;
      [destruct (eqb (div (sub stop start) (of_int (num - 1))) zero)|];
      rewrite !map_map; reflexivity. }
  cbv zeta. rewrite Hy.
  destruct (1 <? num)%Z eqn:E1; [|reflexivity]. f_equal.
  apply Z.ltb_lt in E1.
  replace (Z.to_nat num) with (S (Z.to_nat num - 1)) at 1 by lia.
  rewrite seq_S, map_app. cbn [map]. apply set_last_snoc.
Qed.

Lemma linspace_length (start stop : A) (num : Z) (r : list A) w :
  (0 <= num)%Z -> linspace start stop num = (w, Ok r) ->
  List.length r = Z.to_nat num.
Proof.
  intros Hn H. rewrite (linspace_eq _ _ _ Hn) in H.
  unfold ret in H. injection H as _ <-.
  destruct (1 <? num)%Z eqn:E.
  - apply Z.ltb_lt in E. rewrite length_app, length_map, length_seq. cbn. lia.
  - now rewrite length_map, length_seq.
Qed.

(** X15.  [radius] on any scalars (binary64 included), when the number of
    steps [floor((max_radius - min_radius) / radius_step)] is not
    negative: no warning, as many points as steps plus one, and the
    rebuilt end point [min_radius + nsteps * radius_step] as the last
    one. *)
Lemma radius_shape (self : ProfileBase) (nsteps : Z) :
  floor (div (sub (max_radius self) (min_radius self)) (radius_step self))
    = Ok nsteps ->
  (0 <= nsteps)%Z ->
  exists r,
    radius self = ([], Ok r)
    /\ List.length r = S (Z.to_nat nsteps)
    /\ ((1 <= nsteps)%Z ->
        last r zero
        = add (min_radius self) (mul (of_int nsteps) (radius_step self))).
Proof.
  intros Hf Hn. unfold radius. rewrite Hf. unfold lift, bind.
  rewrite linspace_eq by lia. unfold ret. cbn [app].
  eexists. split; [reflexivity|].
  destruct (1 <? nsteps + 1)%Z eqn:E.
  - apply Z.ltb_lt in E. split.
    + rewrite length_app, length_map, length_seq. cbn [List.length]. lia.
    + intros _. apply last_last.
  - apply Z.ltb_ge in E. split; [|lia].
    rewrite length_map, length_seq. lia.
Qed.

End LinspaceFacts.

(** *** The grids without rounding *)

Section ExactGrid.
Local Open Scope Q_scope.

Lemma nth_map_seq {B : Type} (f : nat -> B) (n i : nat) (d : B) :
  (i < n)%nat -> nth i (map f (seq 0 n)) d = f i.
Proof.
  intro H. rewrite (nth_indep _ d (f 0%nat)) by (now rewrite length_map, length_seq).
  rewrite map_nth, seq_nth by exact H. reflexivity.
Qed.

Lemma inject_Z_pos (n : Z) : (0 < n)%Z -> 0 < inject_Z n.
Proof. intro H. rewrite Zlt_Qlt in H. exact H. Qed.

Lemma linspace_item_exact (start stop : Q) (n : Z) (i : nat) :
  (0 < n)%Z ->
  linspace_item start stop (n + 1) i
  == start + inject_Z (Z.of_nat i) * ((stop - start) / inject_Z n).
Proof.
  intro Hn. pose proof (inject_Z_pos n Hn) as Hq.
  unfold linspace_item. cbn -[Z.add Z.sub Z.ltb Qdiv inject_Z].
  replace (n + 1 - 1)%Z with n by lia.
  destruct (0 <? n)%Z eqn:E; [|apply Z.ltb_ge in E; lia].
  destruct (Qeq_bool _ _); field; lra.
Qed.

(** The grid of the floor-steps rule, without rounding: [n + 1] points
    [lo + i * step]. *)
Lemma grid_exact (lo step : Q) (n : Z) :
  (0 <= n)%Z ->
  exists r,
    linspace lo (lo + inject_Z n * step) (n + 1) = ([], Ok r)
    /\ List.length r = S (Z.to_nat n)
    /\ forall i, (i <= Z.to_nat n)%nat ->
         nth i r 0 == lo + inject_Z (Z.of_nat i) * step.
Proof.
  intro Hn. rewrite linspace_eq by lia.
  destruct (1 <? n + 1)%Z eqn:E.
  - apply Z.ltb_lt in E. assert (Hp : (0 < n)%Z) by lia.
    pose proof (inject_Z_pos n Hp) as Hq.
    eexists. split; [reflexivity|]. split.
    + rewrite length_app, length_map, length_seq. cbn [List.length]. lia.
    + intros i Hi.
      destruct (Nat.eq_dec i (Z.to_nat n)) as [->|Hne].
      * rewrite app_nth2 by (rewrite length_map, length_seq; lia).
        rewrite length_map, length_seq.
        replace (Z.to_nat n - (Z.to_nat (n + 1) - 1))%nat with 0%nat by lia.
        cbn [nth]. rewrite Z2Nat.id by lia. reflexivity.
      * rewrite app_nth1 by (rewrite length_map, length_seq; lia).
        rewrite nth_map_seq by lia.
        rewrite linspace_item_exact by exact Hp. field. lra.
  - apply Z.ltb_ge in E. assert (n = 0)%Z by lia. subst n.
    change (Z.to_nat (0 + 1)) with 1%nat. cbn [seq map].
    eexists. split; [reflexivity|]. split; [reflexivity|].
    intros i Hi. assert (i = 0)%nat by (cbn in Hi; lia). subst i.
    cbn [nth]. unfold linspace_item. cbn. ring.
Qed.

Lemma last_nth {B : Type} (l : list B) (d : B) :
  last l d = nth (List.length l - 1) l d.
Proof.
  induction l as [|x l IH]; [reflexivity|].
  destruct l as [|y l]; [reflexivity|].
  change (last (x :: y :: l) d) with (last (y :: l) d). rewrite IH.
  cbn [List.length]. rewrite !Nat.sub_succ, !Nat.sub_0_r. reflexivity.
Qed.

(** The number of steps of a valid configuration is not negative, and the
    rebuilt end point does not pass [hi]. *)
Lemma floor_steps_exact (lo hi step : Q) :
  lo < hi -> 0 < step ->
  let nsteps := Qfloor ((hi - lo) / step) in
  (0 <= nsteps)%Z /\ lo + inject_Z nsteps * step <= hi.
Proof.
  intros H1 H2 nsteps. split.
  - change 0%Z with (Qfloor 0). apply Qfloor_resp_le.
    apply Qle_shift_div_l; [exact H2|]. lra.
  - pose proof (Qfloor_le ((hi - lo) / step)) as Hf. fold nsteps in Hf.
    apply (Qmult_le_compat_r _ _ step) in Hf; [|lra].
    assert (E : (hi - lo) / step * step == hi - lo) by (field; lra).
    rewrite E in Hf. lra.
Qed.

(** [radius] of a valid configuration, without rounding. *)
Lemma radius_exact (self : @ProfileBase Q) :
  min_radius self < max_radius self -> 0 < radius_step self ->
  let nsteps := Qfloor ((max_radius self - min_radius self) / radius_step self) in
  exists r,
    radius self = ([], Ok r)
    /\ (0 <= nsteps)%Z
    /\ List.length r = S (Z.to_nat nsteps)
    /\ forall i, (i < List.length r)%nat ->
         nth i r 0 == min_radius self + inject_Z (Z.of_nat i) * radius_step self.
Proof.
  intros H1 H2 nsteps.
  destruct (floor_steps_exact _ _ _ H1 H2) as [Hn _]. fold nsteps in Hn.
  destruct (grid_exact (min_radius self) (radius_step self) nsteps Hn)
    as (r & Hr & Hl & Hi).
  exists r. split.
  - unfold radius. cbn -[linspace Qfloor Z.add Qdiv]. fold nsteps.
    now rewrite Hr.
  - split; [exact Hn|]. split; [exact Hl|].
    intros i Hlt. apply Hi. lia.
Qed.

(** C3, in exact arithmetic.  For a valid configuration the radius grid
    has [nsteps + 1] points with
    [nsteps = floor((max_radius - min_radius) / radius_step)], starts at
    [min_radius], is strictly increasing with spacing [radius_step], and
    ends at [min_radius + nsteps * radius_step], which is at most
    [max_radius]. *)
Theorem radius_grid_exact (self : @ProfileBase Q) :
  0 <= min_radius self -> min_radius self < max_radius self ->
  0 < radius_step self ->
  let nsteps := Qfloor ((max_radius self - min_radius self) / radius_step self) in
  exists r,
    radius self = ([], Ok r)
    /\ (0 <= nsteps)%Z
    /\ Z.of_nat (List.length r) = (nsteps + 1)%Z
    /\ nth 0 r 0 == min_radius self
    /\ (forall i, (S i < List.length r)%nat ->
          nth i r 0 < nth (S i) r 0
          /\ nth (S i) r 0 - nth i r 0 == radius_step self)
    /\ last r 0 == min_radius self + inject_Z nsteps * radius_step self
    /\ last r 0 <= max_radius self.
Proof.
  intros H0 H1 H2 nsteps.
  destruct (radius_exact self H1 H2) as (r & Hr & Hn & Hl & Hi).
  fold nsteps in Hn, Hl.
  destruct (floor_steps_exact _ _ _ H1 H2) as [_ Hmax]. fold nsteps in Hmax.
  assert (Hlast : last r 0 == min_radius self + inject_Z nsteps * radius_step self).
  { rewrite last_nth, Hi by lia. rewrite Hl.
    replace (S (Z.to_nat nsteps) - 1)%nat with (Z.to_nat nsteps) by lia.
    rewrite Z2Nat.id by exact Hn. reflexivity. }
  exists r. split; [exact Hr|]. split; [exact Hn|]. split; [lia|].
  split; [rewrite Hi by lia; cbn; ring|].
  split; [|split; [exact Hlast|now rewrite Hlast]].
  intros i Hlt. rewrite !Hi by lia.
  rewrite Nat2Z.inj_succ. unfold Z.succ. rewrite inject_Z_plus.
  split; [|ring].
  change (inject_Z 1) with 1. lra.
Qed.

End ExactGrid.

(** *** The boundaries of the annuli without rounding *)

Section ExactBoundaries.
Local Open Scope Q_scope.

Lemma Qfloor_unique (x : Q) (k : Z) :
  inject_Z k <= x -> x < inject_Z (k + 1) -> Qfloor x = k.
Proof.
  intros H1 H2.
  pose proof (Qfloor_le x) as F1. pose proof (Qlt_floor x) as F2.
  assert (A1 : inject_Z k < inject_Z (Qfloor x + 1))
    by (eapply Qle_lt_trans; eassumption).
  assert (A2 : inject_Z (Qfloor x) < inject_Z (k + 1))
    by (eapply Qle_lt_trans; eassumption).
  rewrite <- Zlt_Qlt in A1, A2. lia.
Qed.

Lemma Qfloor_plus_1 (x : Q) : Qfloor (x + 1) = (Qfloor x + 1)%Z.
Proof.
  apply Qfloor_unique.
  - rewrite inject_Z_plus. pose proof (Qfloor_le x). change (inject_Z 1) with 1. lra.
  - rewrite !inject_Z_plus. pose proof (Qlt_floor x) as F.
    rewrite inject_Z_plus in F. change (inject_Z 1) with 1 in *. lra.
Qed.

(** The boundary radii of a [RadialProfile]: [nsteps + 2] points, from
    [min_radius - radius_step / 2] in steps of [radius_step]. *)
Lemma circular_radii_exact (self : @ProfileBase Q) :
  cls self = RadialProfile ->
  min_radius self < max_radius self -> 0 < radius_step self ->
  let nsteps := Qfloor ((max_radius self - min_radius self) / radius_step self) in
  exists b,
    _circular_radii self = ([], Ok b)
    /\ List.length b = S (S (Z.to_nat nsteps))
    /\ forall i, (i < List.length b)%nat ->
         nth i b 0 == min_radius self - radius_step self / 2
                      + inject_Z (Z.of_nat i) * radius_step self.
Proof.
  intros C H1 H2 nsteps.
  destruct (floor_steps_exact _ _ _ H1 H2) as [Hn _]. fold nsteps in Hn.
  set (lo := min_radius self - radius_step self / inject_Z 2).
  set (hi := max_radius self + radius_step self / inject_Z 2).
  assert (Hf : Qfloor ((hi - lo) / radius_step self) = (nsteps + 1)%Z).
  { unfold nsteps. rewrite <- Qfloor_plus_1. apply Qfloor_comp.
    unfold lo, hi. change (inject_Z 2) with 2. field. lra. }
  destruct (grid_exact lo (radius_step self) (nsteps + 1)) as (b & Hb & Hl & Hi);
    [lia|].
  exists b. split.
  - unfold _circular_radii. rewrite C.
    cbn -[linspace Qfloor Z.add Qdiv inject_Z]. fold lo hi. rewrite Hf.
    now rewrite Hb.
  - split; [rewrite Hl; lia|].
    intros i Hlt. rewrite Hi by lia. unfold lo. reflexivity.
Qed.

(** X14.  For a valid [RadialProfile] without rounding there is one
    boundary more than radii, and every radius is the midpoint of its two
    boundaries. *)
Lemma boundaries_and_midpoints_exact (self : @ProfileBase Q) :
  cls self = RadialProfile ->
  min_radius self < max_radius self -> 0 < radius_step self ->
  exists r b,
    radius self = ([], Ok r) /\ _circular_radii self = ([], Ok b)
    /\ List.length b = S (List.length r)
    /\ forall i, (i < List.length r)%nat ->
         nth i r 0 == (nth i b 0 + nth (S i) b 0) / 2.
Proof.
  intros C H1 H2.
  destruct (radius_exact self H1 H2) as (r & Hr & _ & Hlr & Hir).
  destruct (circular_radii_exact self C H1 H2) as (b & Hb & Hlb & Hib).
  exists r, b. split; [exact Hr|]. split; [exact Hb|].
  split; [lia|]. intros i Hi.
  rewrite Hir, !Hib by lia.
  rewrite Nat2Z.inj_succ. unfold Z.succ. rewrite inject_Z_plus.
  change (inject_Z 1) with 1. field.
Qed.

End ExactBoundaries.

(** ** The apertures of a radial profile *)

Section PairsFacts.
Context {A : Type} {SA : Scalar A}.





End PairsFacts.

Section ExactApertures.
Local Open Scope Q_scope.


End ExactApertures.

(** ** The area-weighted radial profile and the curve of growth *)

Section ProductsFacts.
Context {A : Type} {SA : Scalar A}.

Lemma products_length (a b : list A) :
  List.length a = List.length b -> List.length (products a b) = List.length a.
Proof.
  intro H. unfold products. rewrite length_map, length_combine. lia.
Qed.

Lemma products_nth (a b : list A) (i : nat) (d : A) :
  List.length a = List.length b -> (i < List.length a)%nat ->
  nth i (products a b) d = mul (nth i a d) (nth i b d).
Proof.
  intros H Hi. unfold products.
  rewrite (nth_indep _ d (mul (fst (d, d)) (snd (d, d))))
    by (rewrite length_map, length_combine; lia).
  rewrite (map_nth (fun p => mul (fst p) (snd p))).
  now rewrite combine_nth.
Qed.

Lemma firstn_snoc (l : list A) (k : nat) (d : A) :
  (k < List.length l)%nat -> firstn (S k) l = firstn k l ++ [nth k l d].
Proof.
  revert k. induction l as [|x l IH]; intros k Hk; [cbn in Hk; lia|].
  destruct k as [|k]; [reflexivity|].
  cbn [List.length] in Hk. rewrite firstn_cons, (IH k) by lia. reflexivity.
Qed.

End ProductsFacts.

Section ExactGrowth.
Local Open Scope Q_scope.

Lemma np_sum_snoc (l : list Q) (x : Q) : np_sum (l ++ [x]) = np_sum l + x.
Proof. unfold np_sum. now rewrite fold_left_app. Qed.

(** The first differences telescope. *)
Lemma weighted_profile_telescopes (cumflux cumarea : list Q) (k : nat) :
  List.length cumarea = List.length cumflux ->
  (k <= List.length (diff cumflux))%nat ->
  (forall i, (i < k)%nat -> ~ nth i (diff cumarea) 0 == 0) ->
  np_sum (firstn k (products (quotients (diff cumflux) (diff cumarea))
                             (diff cumarea)))
  == nth k cumflux 0 - nth 0 cumflux 0.
Proof.
  intros L. 
  assert (Ld : List.length (diff cumflux) = List.length (diff cumarea))
    by (rewrite !diff_length; now rewrite L).
  induction k as [|k IH]; intros Hk Hnz.
  - cbn. ring.
  - assert (Lq : List.length (quotients (diff cumflux) (diff cumarea))
                 = List.length (diff cumarea))
      by (rewrite quotients_length; [exact Ld|exact Ld]).
    rewrite (firstn_snoc _ k 0)
      by (rewrite products_length; [rewrite Lq; lia|exact Lq]).
    rewrite np_sum_snoc, IH; [|lia|intros i Hi; apply Hnz; lia].
    rewrite products_nth; [|exact Lq|rewrite Lq; lia].
    rewrite quotients_nth; [|exact Ld|lia].
    rewrite !diff_nth by lia.
    specialize (Hnz k ltac:(lia)). rewrite diff_nth in Hnz by lia.
    cbn [mul div sub exact] in *. field. exact Hnz.
Qed.

(** C9.  For a valid [RadialProfile] in exact arithmetic, [_photometry],
    [profile] and [area] return, with one bin per radius, and over every
    prefix of bins whose areas are all non-zero the sum of
    [profile_i * area_i] is the cumulative flux at the last boundary of
    the prefix minus the cumulative flux at the first boundary. *)
Theorem weighted_radial_profile_is_growth
    (do_photometry : @ProfileBase Q -> @aperture Q -> Q * Q)
    (area_overlap : @ProfileBase Q -> @aperture Q -> Q)
    (self : @ProfileBase Q) :
  cls self = RadialProfile ->
  min_radius self < max_radius self -> 0 < radius_step self ->
  let nsteps := Qfloor ((max_radius self - min_radius self) / radius_step self) in
  exists cumflux cumfluxerr cumarea ws p a,
    _photometry do_photometry area_overlap self
      = ([], Ok (cumflux, cumfluxerr, cumarea))
    /\ profile do_photometry area_overlap self = (ws, Ok p)
    /\ area do_photometry area_overlap self = ([], Ok a)
    /\ List.length p = S (Z.to_nat nsteps)
    /\ List.length a = List.length p
    /\ forall k, (k <= List.length p)%nat ->
         (forall i, (i < k)%nat -> ~ nth i a 0 == 0) ->
         np_sum (firstn k (products p a)) == nth k cumflux 0 - nth 0 cumflux 0.
Proof.
  intros C H1 H2 nsteps.
  destruct (circular_radii_exact self C H1 H2) as (b & Hb & Lb & _).
  fold nsteps in Lb.
  destruct (photometry_total do_photometry area_overlap self [] b Hb)
    as (cumflux & cumfluxerr & cumarea & H & Lf).
  destruct (radial_profile_values _ _ _ _ _ _ _ C H) as (ws & Hp & _).
  destruct (photometry_lengths _ _ _ _ _ _ _ H) as (L & _ & _).
  assert (Ld : List.length (diff cumflux) = List.length (diff cumarea))
    by (rewrite !diff_length; now rewrite L).
  exists cumflux, cumfluxerr, cumarea, ws,
    (quotients (diff cumflux) (diff cumarea)), (diff cumarea).
  split; [exact H|]. split; [exact Hp|].
  split; [eapply radial_area; eassumption|].
  rewrite (quotients_length _ _ Ld).
  split; [rewrite diff_length, Lf, Lb; lia|]. split; [now rewrite Ld|].
  intros k Hk Hnz. apply weighted_profile_telescopes; assumption.
Qed.

End ExactGrowth.

(** ** Normalization without rounding *)

Section ExactNormalize.
Local Open Scope Q_scope.

Lemma Qle_bool_scale (a b c : Q) :
  0 < c -> Qle_bool (b / c) (a / c) = Qle_bool b a.
Proof.
  intro Hc. apply eq_true_iff_eq. rewrite !Qle_bool_iff.
  unfold Qdiv. apply Qmult_le_r. now apply Qinv_lt_0_compat.
Qed.

Lemma maximum_scale (a b c : Q) :
  0 < c -> maximum (a / c) (b / c) = maximum a b / c.
Proof.
  intro Hc. unfold maximum. cbn [leb isnan exact].
  rewrite Qle_bool_scale by exact Hc.
  now destruct (Qle_bool b a).
Qed.

Lemma fold_maximum_scale (l : list Q) (x c : Q) :
  0 < c ->
  fold_left maximum (map (fun v => v / c) l) (x / c)
  = fold_left maximum l x / c.
Proof.
  intro Hc. revert x. induction l as [|y l IH]; intro x; [reflexivity|].
  cbn [map fold_left]. rewrite maximum_scale by exact Hc. apply IH.
Qed.

Lemma maximum_ge (a b : Q) : a <= maximum a b /\ b <= maximum a b.
Proof.
  unfold maximum. cbn [leb isnan exact]. rewrite orb_false_r.
  destruct (Qle_bool b a) eqn:E.
  - apply Qle_bool_iff in E. split; lra.
  - assert (~ b <= a) by (intro H; apply Qle_bool_iff in H; congruence).
    split; lra.
Qed.

(** The maximum is at least every item. *)
Lemma fold_maximum_ge (l : list Q) (x : Q) :
  x <= fold_left maximum l x
  /\ Forall (fun v => v <= fold_left maximum l x) l.
Proof.
  revert x. induction l as [|y l IH]; intro x.
  - split; [apply Qle_refl|constructor].
  - cbn [fold_left]. destruct (IH (maximum x y)) as [H1 H2].
    destruct (maximum_ge x y) as [G1 G2].
    split; [eapply Qle_trans; eassumption|].
    constructor; [eapply Qle_trans; eassumption|exact H2].
Qed.

Lemma fold_sum_compat (l : list Q) (a a' : Q) :
  a == a' -> fold_left Qplus l a == fold_left Qplus l a'.
Proof.
  revert a a'. induction l as [|y l IH]; intros a a' H; [exact H|].
  cbn [fold_left]. apply IH. now rewrite H.
Qed.

Lemma fold_sum_scale (l : list Q) (a c : Q) :
  ~ c == 0 ->
  fold_left Qplus (map (fun v => v / c) l) (a / c) == fold_left Qplus l a / c.
Proof.
  intro Hc. revert a. induction l as [|y l IH]; intro a; [reflexivity|].
  cbn [map fold_left]. rewrite <- IH. apply fold_sum_compat. field. exact Hc.
Qed.

Lemma np_sum_scale (l : list Q) (c : Q) :
  ~ c == 0 -> np_sum (map (fun v => v / c) l) == np_sum l / c.
Proof.
  intro Hc. unfold np_sum. cbn [add zero exact].
  rewrite <- fold_sum_scale by exact Hc.
  apply fold_sum_compat. field. exact Hc.
Qed.


Lemma positive_not_zero (c : Q) : 0 < c -> Qeq_bool c 0 = false.
Proof.
  intro H. destruct (Qeq_bool c 0) eqn:E; [|reflexivity].
  apply Qeq_bool_iff in E. lra.
Qed.




End ExactNormalize.

(** * The code on concrete inputs *)

(** C3 on binary64: [CurveOfGrowth(data, xycen, 0.0, 1.7, 0.1)] is a valid
    configuration; its radius grid has 18 points and ends at
    1.7000000000000002, beyond [max_radius]; two consecutive radii are
    not [radius_step] apart. *)
Lemma radius_grid_b64_rounding :
  exists r,
    init (A := float) CurveOfGrowth Examples.image (0, 0)%float
         0%float 1.7%float 0.1%float None None "exact" 5
      = ([], Ok (Examples.new CurveOfGrowth 0%float 1.7%float 0.1%float))
    /\ radius (Examples.new CurveOfGrowth 0%float 1.7%float 0.1%float) = ([], Ok r)
    /\ List.length r = 18%nat
    /\ last r 0%float = 1.7000000000000002%float
    /\ PrimFloat.ltb 1.7%float (last r 0%float) = true
    /\ PrimFloat.eqb (nth 3 r 0 - nth 2 r 0)%float 0.1%float = false.
Proof.
  eexists. split; [reflexivity|]. split; [vm_compute; reflexivity|].
  repeat split; vm_compute; reflexivity.
Qed.

(** C4 on binary64.  For [RadialProfile(data, xycen, 0.0, 0.2, 0.1)] the
    radius grid has 3 points and the boundaries have 3 points as well, so
    that [profile] has 2 values for 3 radii; for [(0.0, 0.7, 0.1)] there
    are 7 radii and 9 boundaries, and [profile] has 8 values. *)
Theorem radial_boundaries_b64_mismatch :
  exists r b ws p r' b' ws' p',
    radius (Examples.new RadialProfile 0%float 0.2%float 0.1%float) = ([], Ok r)
    /\ _circular_radii (Examples.new RadialProfile 0%float 0.2%float 0.1%float)
       = ([], Ok b)
    /\ profile Examples.flux_r2 Examples.area_r2
         (Examples.new RadialProfile 0%float 0.2%float 0.1%float) = (ws, Ok p)
    /\ List.length r = 3%nat /\ List.length b = 3%nat /\ List.length p = 2%nat
    /\ radius (Examples.new RadialProfile 0%float 0.7%float 0.1%float) = ([], Ok r')
    /\ _circular_radii (Examples.new RadialProfile 0%float 0.7%float 0.1%float)
       = ([], Ok b')
    /\ profile Examples.flux_r2 Examples.area_r2
         (Examples.new RadialProfile 0%float 0.7%float 0.1%float) = (ws', Ok p')
    /\ List.length r' = 7%nat /\ List.length b' = 9%nat /\ List.length p' = 8%nat.
Proof.
  do 8 eexists.
  split; [vm_compute; reflexivity|]. split; [vm_compute; reflexivity|].
  split; [vm_compute; reflexivity|].
  split; [reflexivity|]. split; [reflexivity|]. split; [reflexivity|].
  split; [vm_compute; reflexivity|]. split; [vm_compute; reflexivity|].
  split; [vm_compute; reflexivity|].
  split; [reflexivity|]. split; reflexivity.
Qed.



(** ** The theorems applied to concrete inputs *)

Lemma radial_profile_flux_over_area_witness :
  exists ws p,
    profile Examples.flux_r2 Examples.area_capped Examples.rp = (ws, Ok p)
    /\ List.length p = 3%nat
    /\ (B64.isinf (nth 2 p 0%float) = true \/ B64.isnan (nth 2 p 0%float) = true).
Proof.
  assert (Hb : _circular_radii Examples.rp = ([], Ok Examples.boundaries))
    by (vm_compute; reflexivity).
  destruct (radial_profile_flux_over_area
              Examples.flux_r2 Examples.area_capped Examples.rp []
              Examples.boundaries eq_refl Hb)
    as (cumflux & cumfluxerr & cumarea & ws & p & Hph & Hp & _ & Hl & Hi).
  exists ws, p. split; [exact Hp|]. split; [exact Hl|].
  apply (Hi 2%nat); [rewrite Hl; vm_compute; lia|].
  vm_compute in Hph. injection Hph as <- _ <-. reflexivity.
Defined.

Lemma radial_profile_error_spec_witness :
  (exists ws pe,
     profile_error Examples.flux_r2 Examples.area_capped Examples.rp_err
       = (ws, Ok pe)
     /\ List.length pe = 3%nat)
  /\ profile_error Examples.flux_r2 Examples.area_capped Examples.rp
     = _fluxerr Examples.flux_r2 Examples.area_capped Examples.rp.
Proof.
  split.
  - assert (Hb : _circular_radii Examples.rp_err = ([], Ok Examples.boundaries))
      by (vm_compute; reflexivity).
    destruct (radial_profile_error_spec
                Examples.flux_r2 Examples.area_capped Examples.rp_err []
                Examples.boundaries eq_refl Hb)
      as (cumflux & cumfluxerr & cumarea & _ & H & _).
    destruct H as (ws & pe & Hp & _ & Hl & _); [discriminate|].
    exists ws, pe. split; [exact Hp|exact Hl].
  - assert (Hb : _circular_radii Examples.rp = ([], Ok Examples.boundaries))
      by (vm_compute; reflexivity).
    destruct (radial_profile_error_spec
                Examples.flux_r2 Examples.area_capped Examples.rp []
                Examples.boundaries eq_refl Hb)
      as (cumflux & cumfluxerr & cumarea & _ & _ & H).
    destruct H as (H & _); [reflexivity|exact H].
Defined.

Lemma radius_grid_exact_witness :
  exists r,
    radius (Examples.new CurveOfGrowth 0 3 1)%Q = ([], Ok r)
    /\ Z.of_nat (List.length r) = 4%Z
    /\ (last r 0 <= 3)%Q.
Proof.
  destruct (radius_grid_exact (Examples.new CurveOfGrowth 0 3 1)%Q)
    as (r & Hr & _ & Hl & _ & _ & _ & Hmax).
  - vm_compute; discriminate.
  - reflexivity.
  - reflexivity.
  - exists r. split; [exact Hr|]. split; [exact Hl|exact Hmax].
Defined.



Lemma normalize_spec_witness :
  (exists msg,
     normalize "median" {| c_profile := [2; 4]%float; c_profile_error := [] |}
       = ([], Raise (ValueError msg)))
  /\ normalize "max" {| c_profile := [-1; 0]%float; c_profile_error := [1; 1]%float |}
     = ([zero_warning],
        Ok {| c_profile := [-1; 0]%float; c_profile_error := [1; 1]%float |})
  /\ normalize "sum" {| c_profile := [2; 6]%float; c_profile_error := [4; 4]%float |}
     = ([], Ok {| c_profile := [0.25; 0.75]%float;
                  c_profile_error := [0.5; 0.5]%float |}).
Proof.
  split; [|split].
  - apply (proj1 (normalize_spec "median"
                    {| c_profile := [2; 4]%float; c_profile_error := [] |}));
      discriminate.
  - apply (proj1 (proj2 (normalize_spec "max"
                    {| c_profile := [-1; 0]%float;
                       c_profile_error := [1; 1]%float |})) 0%float).
    + exact (norm_max {| c_profile := [-1; 0]%float;
                         c_profile_error := [1; 1]%float |}
                      (-1)%float [0%float] eq_refl).
    + reflexivity.
  - etransitivity.
    + apply (proj2 (proj2 (normalize_spec "sum"
                      {| c_profile := [2; 6]%float;
                         c_profile_error := [4; 4]%float |})) 8%float).
      * exact (norm_sum {| c_profile := [2; 6]%float;
                           c_profile_error := [4; 4]%float |}).
      * reflexivity.
    + vm_compute. reflexivity.
Defined.

Lemma weighted_radial_profile_is_growth_witness :
  exists cumflux ws p a,
    profile Examples.flux_r2 Examples.area_r2 Examples.rq = (ws, Ok p)
    /\ area Examples.flux_r2 Examples.area_r2 Examples.rq = ([], Ok a)
    /\ List.length p = 4%nat
    /\ (np_sum (firstn 4 (products p a)) == nth 4 cumflux 0 - nth 0 cumflux 0)%Q.
Proof.
  destruct (weighted_radial_profile_is_growth
              Examples.flux_r2 Examples.area_r2 Examples.rq)
    as (cumflux & cumfluxerr & cumarea & ws & p & a & _ & Hp & Ha & Hl & _ & Hsum).
  - reflexivity.
  - reflexivity.
  - reflexivity.
  - exists cumflux, ws, p, a. split; [exact Hp|]. split; [exact Ha|].
    split; [exact Hl|]. apply Hsum.
    + rewrite Hl. vm_compute. lia.
    + intros i Hi. vm_compute in Ha. injection Ha as <-.
      destruct i as [|[|[|[|i]]]]; [| | | |lia]; vm_compute; discriminate.
Defined.


(** * Further properties of the code *)

(** ** The photometry of the circles, item by item *)

Section PhotometryItems.
Context {A : Type} {SA : Scalar A}.
Variable do_photometry : @ProfileBase A -> @aperture A -> A * A.
Variable area_overlap : @ProfileBase A -> @aperture A -> A.

Local Abbreviation at_radius := (measured_at do_photometry area_overlap).

Lemma nth_map_in {X Y : Type} (f : X -> Y) (l : list X) (i : nat) (d : X) (d' : Y) :
  (i < List.length l)%nat -> nth i (map f l) d' = f (nth i l d).
Proof.
  intro H. rewrite (nth_indep _ d' (f d)) by (now rewrite length_map).
  apply map_nth.
Qed.

Lemma photometry_items (self : ProfileBase) w b :
  _circular_radii self = (w, Ok b) ->
  _photometry do_photometry area_overlap self
  = (w, Ok (map (fun r => fst (fst (at_radius self r))) b,
            match error self with
            | Some _ => map (fun r => snd (fst (at_radius self r))) b
            | None => []
            end,
            map (fun r => snd (at_radius self r)) b)).
Proof.
  intro H. unfold _photometry.
  rewrite (circular_apertures_total self w b H). cbn [bind ret].
  rewrite app_nil_r. unfold measured_at. rewrite !map_map.
  destruct (error self); reflexivity.
Qed.

End PhotometryItems.

(** ** The curve of growth *)

Section CurveOfGrowthFacts.
Context {A : Type} {SA : Scalar A} {RA : Sqrt A}.
Variable do_photometry : @ProfileBase A -> @aperture A -> A * A.
Variable area_overlap : @ProfileBase A -> @aperture A -> A.

(** The values of a [CurveOfGrowth], radius by radius. *)
Lemma curve_of_growth_values (self : ProfileBase) w (r : list A) :
  cls self = CurveOfGrowth ->
  radius self = (w, Ok r) ->
  CurveOfGrowth_apertures self = (w, Ok (map (circle_of self) r))
  /\ profile do_photometry area_overlap self
     = (w, Ok (map (fun x => fst (fst (measured_at do_photometry
                                         area_overlap self x))) r))
  /\ area do_photometry area_overlap self
     = (w, Ok (map (fun x => snd (measured_at do_photometry
                                    area_overlap self x)) r)).
Proof.
  intros C Hr.
  assert (Hb : _circular_radii self = (w, Ok r))
    by (unfold _circular_radii; now rewrite C).
  pose proof (photometry_items do_photometry area_overlap self w r Hb) as H.
  split; [exact (circular_apertures_total self w r Hb)|].
  split; [unfold profile|unfold area];
    rewrite C, H; cbn [bind ret fst snd]; now rewrite app_nil_r.
Qed.

(** X1.  For a [CurveOfGrowth] on any scalars: once [radius] is built,
    [profile], [profile_error] and [area] return without a warning of
    their own; [profile] and [area] have one value per radius, and
    [profile_error] has one value per radius when an [error] array was
    given and is empty otherwise. *)
Theorem curve_of_growth_aligned (self : ProfileBase) w (r : list A) :
  cls self = CurveOfGrowth ->
  radius self = (w, Ok r) ->
  exists p pe a,
    profile do_photometry area_overlap self = (w, Ok p)
    /\ profile_error do_photometry area_overlap self = (w, Ok pe)
    /\ area do_photometry area_overlap self = (w, Ok a)
    /\ List.length p = List.length r
    /\ List.length a = List.length r
    /\ (error self = None -> pe = [])
    /\ (error self <> None -> List.length pe = List.length r).
Proof.
  intros C Hr.
  assert (Hb : _circular_radii self = (w, Ok r))
    by (unfold _circular_radii; now rewrite C).
  pose proof (photometry_items do_photometry area_overlap self w r Hb) as H.
  do 3 eexists.
  split; [unfold profile; rewrite C, H; cbn [bind ret fst snd];
          now rewrite app_nil_r|].
  split; [unfold profile_error; rewrite C, H; cbn [bind ret fst snd];
          now rewrite app_nil_r|].
  split; [unfold area; rewrite C, H; cbn [bind ret fst snd];
          now rewrite app_nil_r|].
  rewrite !length_map. split; [reflexivity|]. split; [reflexivity|].
  split.
  - intros ->. reflexivity.
  - intro N. destruct (error self); [now rewrite length_map|congruence].
Qed.

(** X2.  For a [CurveOfGrowth] on any scalars: [apertures] has one entry
    per radius and never raises; the entry of a radius [<= 0] is [None],
    and there the profile value and the area are zero; the entry of any
    other radius is the circle of that radius around [xycen], and there
    the profile value and the area are what the photometry primitives
    give for that circle. *)
Theorem curve_of_growth_none_is_zero (self : ProfileBase) w (r : list A) :
  cls self = CurveOfGrowth ->
  radius self = (w, Ok r) ->
  exists aps p a,
    CurveOfGrowth_apertures self = (w, Ok aps)
    /\ profile do_photometry area_overlap self = (w, Ok p)
    /\ area do_photometry area_overlap self = (w, Ok a)
    /\ List.length aps = List.length r
    /\ forall i, (i < List.length r)%nat ->
         (leb (nth i r zero) zero = true ->
            nth i aps None = None
            /\ nth i p zero = zero /\ nth i a zero = zero)
         /\
         (leb (nth i r zero) zero = false ->
            let c := Circle (xycen self) (nth i r zero) in
            nth i aps None = Some c
            /\ nth i p zero = fst (do_photometry self c)
            /\ nth i a zero = area_overlap self c).
Proof.
  intros C Hr.
  destruct (curve_of_growth_values self w r C Hr) as (Ha & Hp & Har).
  do 3 eexists.
  split; [exact Ha|]. split; [exact Hp|]. split; [exact Har|].
  split; [now rewrite length_map|].
  intros i Hi.
  rewrite !(nth_map_in _ r i zero) by exact Hi.
  unfold measured_at, circle_of. cbv zeta.
  split; intros ->; cbn [fst snd]; repeat split; reflexivity.
Qed.

End CurveOfGrowthFacts.

(** ** The error of the radial profile, as a whole *)

Section RadialErrorValues.
Context {A : Type} {SA : Scalar A} {RA : Sqrt A}.
Variable do_photometry : @ProfileBase A -> @aperture A -> A * A.
Variable area_overlap : @ProfileBase A -> @aperture A -> A.

(** [profile_error] of a [RadialProfile] returns once the photometry is
    there: one value per bin with an [error] array, none without. *)
Lemma radial_profile_error_values
    (self : ProfileBase) w (cumflux cumfluxerr cumarea : list A) :
  cls self = RadialProfile ->
  _photometry do_photometry area_overlap self
    = (w, Ok (cumflux, cumfluxerr, cumarea)) ->
  exists ws pe,
    profile_error do_photometry area_overlap self = (ws, Ok pe)
    /\ ((error self <> None -> List.length pe = List.length (diff cumarea))
        /\ (error self = None -> pe = [])).
Proof.
  intros C H.
  destruct (photometry_lengths _ _ _ _ _ _ _ H) as (L & Lnone & Lsome).
  destruct (radial_fluxerr _ _ _ _ _ _ _ H) as [w' Hfe].
  unfold profile_error. rewrite C.
  destruct (error self) as [e|] eqn:E.
  - assert (Lfe : List.length (map sqrt (diff (square cumfluxerr)))
                  = List.length (diff cumarea)).
    { unfold square. rewrite length_map, !diff_length, length_map.
      rewrite Lsome by discriminate. now rewrite L. }
    destruct (divide_Ok _ _ Lfe) as (wd & Hd & _).
    match goal with |- context [catch_warnings_ignore _ ?m] => set (body := m) end.
    assert (Hbody : body = ((w ++ w') ++ w ++ wd,
                            Ok (quotients (map sqrt (diff (square cumfluxerr)))
                                          (diff cumarea)))).
    { unfold body. eapply bind_Ok; [exact Hfe|].
      eapply bind_Ok; [eapply radial_area; [exact C|exact H]|exact Hd]. }
    destruct (catch_warnings_ignore RuntimeWarning body) as [ws r] eqn:Eb.
    pose proof (f_equal snd Eb) as Hs. cbn [snd catch_warnings_ignore] in Hs.
    rewrite Hbody in Hs. cbn [snd] in Hs. subst r.
    do 2 eexists. split; [reflexivity|]. split; [|discriminate].
    intros _. now rewrite quotients_length.
  - rewrite Hfe. do 2 eexists. split; [reflexivity|]. split; [congruence|].
    intros _. now rewrite (Lnone eq_refl).
Qed.

End RadialErrorValues.

(** ** The two profiles without rounding *)

Section ExactProfiles.
Local Open Scope Q_scope.
Variable do_photometry : @ProfileBase Q -> @aperture Q -> Q * Q.
Variable area_overlap : @ProfileBase Q -> @aperture Q -> Q.

(** X3.  For a valid [CurveOfGrowth] in exact arithmetic everything
    returns; the only aperture that can be [None] is the first one, and it
    is [None] exactly when [min_radius] is zero; the profile value and the
    area are then 0 at index 0. *)
Theorem curve_of_growth_first_none_exact (self : @ProfileBase Q) :
  cls self = CurveOfGrowth ->
  0 <= min_radius self -> min_radius self < max_radius self ->
  0 < radius_step self ->
  exists r aps p a,
    radius self = ([], Ok r)
    /\ CurveOfGrowth_apertures self = ([], Ok aps)
    /\ profile do_photometry area_overlap self = ([], Ok p)
    /\ area do_photometry area_overlap self = ([], Ok a)
    /\ List.length aps = List.length r
    /\ (forall i, (i < List.length r)%nat ->
          (nth i aps None = None <-> i = 0%nat /\ min_radius self == 0))
    /\ (min_radius self == 0 -> nth 0 p 0 = 0 /\ nth 0 a 0 = 0).
Proof.
  intros C H0 H1 H2.
  destruct (radius_exact self H1 H2) as (r & Hr & Hn & Hl & Hi).
  destruct (curve_of_growth_values do_photometry area_overlap self [] r C Hr)
    as (Ha & Hp & Har).
  do 4 eexists.
  split; [exact Hr|]. split; [exact Ha|]. split; [exact Hp|].
  split; [exact Har|]. split; [now rewrite length_map|].
  assert (Hle : forall i, (i < List.length r)%nat ->
            (Qle_bool (nth i r 0) 0 = true <-> i = 0%nat /\ min_radius self == 0)).
  { intros i Hlt. rewrite Qle_bool_iff, (Hi i Hlt). split.
    - intro Hle. destruct i as [|i].
      + split; [reflexivity|].
        change (inject_Z (Z.of_nat 0)) with 0 in Hle. lra.
      + exfalso.
        assert (1 <= inject_Z (Z.of_nat (S i))).
        { change 1 with (inject_Z 1). rewrite <- Zle_Qle. lia. }
        assert (0 <= (inject_Z (Z.of_nat (S i)) - 1) * radius_step self)
          by (apply Qmult_le_0_compat; lra).
        lra.
    - intros [-> Hm]. change (inject_Z (Z.of_nat 0)) with 0. lra. }
  split.
  - intros i Hlt. rewrite (nth_map_in _ r i 0) by exact Hlt.
    unfold circle_of. cbn [leb zero exact].
    destruct (Qle_bool (nth i r 0) 0) eqn:E.
    + split; [intros _; now apply Hle|reflexivity].
    + split; [discriminate|].
      intro X. apply Hle in X; [congruence|exact Hlt].
  - intro Hm.
    assert (E : Qle_bool (nth 0 r 0) 0 = true)
      by (apply Hle; [lia|now split]).
    rewrite !(nth_map_in _ r 0%nat 0) by lia.
    unfold measured_at, circle_of. cbn [leb zero exact]. rewrite E.
    now split.
Qed.

(** X4.  For a valid [RadialProfile] in exact arithmetic, [radius],
    [profile] and [area] return and are aligned: each has [nsteps + 1]
    values.  [profile_error] (for any square root) has as many values when
    an [error] array was given, and none otherwise. *)
Theorem radial_profile_aligned_exact (RA : Sqrt Q) (self : @ProfileBase Q) :
  cls self = RadialProfile ->
  min_radius self < max_radius self -> 0 < radius_step self ->
  exists r ws p a ws' pe,
    radius self = ([], Ok r)
    /\ profile do_photometry area_overlap self = (ws, Ok p)
    /\ area do_photometry area_overlap self = ([], Ok a)
    /\ profile_error do_photometry area_overlap self = (ws', Ok pe)
    /\ List.length p = List.length r
    /\ List.length a = List.length r
    /\ (error self <> None -> List.length pe = List.length r)
    /\ (error self = None -> pe = []).
Proof.
  intros C H1 H2.
  destruct (radius_exact self H1 H2) as (r & Hr & Hn & Hl & _).
  destruct (circular_radii_exact self C H1 H2) as (b & Hb & Lb & _).
  destruct (photometry_total do_photometry area_overlap self [] b Hb)
    as (cumflux & cumfluxerr & cumarea & H & Lf).
  destruct (photometry_lengths _ _ _ _ _ _ _ H) as (La & Lnone & Lsome).
  destruct (radial_profile_values _ _ _ _ _ _ _ C H) as (ws & Hp & _).
  pose proof (radial_area _ _ _ _ _ _ _ C H) as Ha.
  destruct (radial_profile_error_values do_photometry area_overlap
              self [] cumflux cumfluxerr cumarea C H) as (ws' & pe & Hpe & Lpe).
  exists r, ws, (quotients (diff cumflux) (diff cumarea)), (diff cumarea), ws', pe.
  split; [exact Hr|]. split; [exact Hp|]. split; [exact Ha|].
  split; [exact Hpe|].
  assert (Ld : List.length (diff cumarea) = List.length r)
    by (rewrite diff_length; lia).
  split; [rewrite quotients_length; rewrite !diff_length; lia|].
  split; [exact Ld|]. split.
  - intro N. destruct Lpe as [Lpe _]. rewrite (Lpe N), diff_length. lia.
  - intro N. destruct Lpe as [_ Lpe]. exact (Lpe N).
Qed.

End ExactProfiles.

(** ** Plotting the errors *)

Section KwargsFacts.
Context {A : Type}.

Lemma setitem_new (k : string) (v : kwvalue A) (d : kwargs A) :
  contains k d = false -> setitem k v d = d ++ [(k, v)].
Proof.
  induction d as [|[k' v'] d IH]; intro H; [reflexivity|].
  cbn in H. apply orb_false_iff in H as [H1 H2].
  cbn [setitem]. rewrite H1. cbn [app]. now rewrite IH.
Qed.

(** Updating a [dict] with keys it does not have appends them in order. *)
Lemma update_new (d kw : kwargs A) :
  NoDup (map fst kw) ->
  (forall k, In k (map fst kw) -> contains k d = false) ->
  update d kw = d ++ kw.
Proof.
  revert d. induction kw as [|[k v] kw IH]; intros d ND Hd.
  - cbn. now rewrite app_nil_r.
  - unfold update. cbn [fold_left fst snd].
    rewrite setitem_new by (apply Hd; now left).
    fold (update (d ++ [(k, v)]) kw).
    cbn [map fst] in ND. inversion ND as [|? ? Hk ND']; subst.
    rewrite IH; [now rewrite <- app_assoc|exact ND'|].
    intros k' Hk'. unfold contains. rewrite existsb_app.
    apply orb_false_iff. split.
    + apply Hd. now right.
    + cbn [existsb fst]. rewrite orb_false_r. apply String.eqb_neq.
      intros ->. contradiction.
Qed.

End KwargsFacts.

Section PlotErrorFacts.
Context {A : Type} {SA : Scalar A} {RA : Sqrt A}.
Variable Axes PolyCollection : Type.
Variable gca : Axes.
Variable fill_between :
  Axes -> list A -> list A -> list A -> kwargs A -> Py PolyCollection.
Variable do_photometry : @ProfileBase A -> @aperture A -> A * A.
Variable area_overlap : @ProfileBase A -> @aperture A -> A.

Local Abbreviation plot_err := (plot_error Axes PolyCollection gca fill_between
                                  do_photometry area_overlap).

(** The keywords of the call of [fill_between]. *)
Lemma keywords_facecolor_first (kwargs0 : kwargs A) :
  NoDup (map fst kwargs0) ->
  (if negb (contains "facecolor" kwargs0)
   then update [("facecolor"%string, default_facecolor)] kwargs0
   else kwargs0)
  = facecolor_first kwargs0.
Proof.
  intro ND. unfold facecolor_first.
  destruct (contains "facecolor" kwargs0) eqn:E; [reflexivity|].
  cbn [negb]. rewrite update_new; [reflexivity|exact ND|].
  intros k Hk. unfold contains. cbn [existsb fst]. rewrite orb_false_r.
  apply String.eqb_neq. intros <-.
  apply in_map_iff in Hk as ((k & v) & Hk1 & Hk2). cbn in Hk1. subst k.
  unfold contains in E.
  assert (X : existsb (fun kv : string * kwvalue A => String.eqb (fst kv) "facecolor")
                      kwargs0 = true).
  { apply existsb_exists. exists ("facecolor"%string, v). split; [exact Hk2|].
    apply String.eqb_refl. }
  congruence.
Qed.

(** Without flux errors nothing is drawn. *)
Lemma plot_error_on_empty (radius0 profile0 : Py (list A)) we ax kwargs0 :
  plot_error_on Axes PolyCollection gca fill_between
    radius0 profile0 (we, Ok []) ax kwargs0
  = (we ++ [no_errors_warning], Ok None).
Proof. reflexivity. Qed.

(** With flux errors the band [profile -/+ profile_error] is drawn. *)
Lemma plot_error_on_band wr r wp p we pe ax kwargs0 :
  pe <> [] -> List.length p = List.length pe ->
  NoDup (map fst kwargs0) ->
  plot_error_on Axes PolyCollection gca fill_between
    (wr, Ok r) (wp, Ok p) (we, Ok pe) ax kwargs0
  = (_ <- (we ++ wp ++ wr, Ok tt) ;;
     polycoll <- fill_between (match ax with None => gca | Some a => a end) r
                   (map (fun x => sub (fst x) (snd x)) (combine p pe))
                   (map (fun x => add (fst x) (snd x)) (combine p pe))
                   (facecolor_first kwargs0) ;;
     ret (Some polycoll)).
Proof.
  intros Hne L ND. unfold plot_error_on.
  rewrite (keywords_facecolor_first kwargs0 ND).
  destruct pe as [|e pe]; [congruence|].
  cbn [List.length Nat.eqb bind ret app].
  unfold subtract, np_add, broadcast. rewrite L, Nat.eqb_refl.
  cbn [bind ret app].
  destruct (bind (fill_between _ _ _ _ _) _) as [wf o].
  now rewrite <- !app_assoc.
Qed.

(** [profile_error] when no [error] array was given: empty, for either
    class. *)
Lemma profile_error_without_error (self : ProfileBase) w b :
  error self = None ->
  _circular_radii self = (w, Ok b) ->
  profile_error do_photometry area_overlap self = (w, Ok []).
Proof.
  intros E Hb.
  pose proof (photometry_items do_photometry area_overlap self w b Hb) as H.
  rewrite E in H. unfold profile_error, _fluxerr. rewrite E, H.
  destruct (cls self); cbn; now rewrite app_nil_r.
Qed.

(** A profile that returns has its photometry. *)
Lemma photometry_of_profile (self : ProfileBase) wp p :
  profile do_photometry area_overlap self = (wp, Ok p) ->
  exists w cumflux cumfluxerr cumarea,
    _photometry do_photometry area_overlap self
    = (w, Ok (cumflux, cumfluxerr, cumarea)).
Proof.
  unfold profile. destruct (cls self).
  - intro H. apply bind_Ok_inv in H as (w & [[cf cfe] ca] & _ & H & _).
    now exists w, cf, cfe, ca.
  - intro H. apply (f_equal snd) in H. cbn [snd catch_warnings_ignore] in H.
    match type of H with snd ?m = _ => destruct m as [wb ob] eqn:Eb end.
    cbn [snd] in H. subst ob.
    apply bind_Ok_inv in Eb as (w1 & f & _ & Hf & _).
    unfold _flux in Hf.
    apply bind_Ok_inv in Hf as (w & [[cf cfe] ca] & _ & H & _).
    now exists w, cf, cfe, ca.
Qed.

(** The errors that [profile_error] returns are aligned with [profile]. *)
Lemma profiles_aligned (self : ProfileBase) wp p we pe :
  profile do_photometry area_overlap self = (wp, Ok p) ->
  profile_error do_photometry area_overlap self = (we, Ok pe) ->
  pe <> [] -> List.length p = List.length pe.
Proof.
  intros Hp Hpe Hne.
  destruct (photometry_of_profile self wp p Hp) as (w & cf & cfe & ca & H).
  destruct (photometry_lengths _ _ _ _ _ _ _ H) as (L & Lnone & Lsome).
  destruct (cls self) eqn:C.
  - unfold profile in Hp. unfold profile_error in Hpe. rewrite C, H in Hp, Hpe.
    cbn in Hp, Hpe. injection Hp as _ <-. injection Hpe as _ <-.
    destruct (error self); [symmetry; apply Lsome; discriminate|].
    now rewrite Lnone in Hne.
  - destruct (radial_profile_values _ _ _ _ _ _ _ C H) as (ws & Hq & _).
    rewrite Hq in Hp. injection Hp as _ <-.
    destruct (radial_profile_error_values do_photometry area_overlap
                self w cf cfe ca C H) as (ws' & pe' & Hq' & Ls & Ln).
    rewrite Hq' in Hpe. injection Hpe as _ <-.
    destruct (error self); [|now rewrite Ln in Hne].
    rewrite Ls by discriminate.
    assert (Ld : List.length (diff cf) = List.length (diff ca))
      by (rewrite !diff_length; now rewrite L).
    now rewrite quotients_length.
Qed.

(** X5.  [plot_error] of an object without [error] array (either class,
    once the radii of its circles are built): [profile_error] is empty,
    so the method emits the [AstropyUserWarning] 'Errors were not input'
    and returns [None]; nothing is drawn, whatever the axes and the
    keywords. *)
Theorem plot_error_without_errors (self : ProfileBase) w b ax kwargs0 :
  error self = None ->
  _circular_radii self = (w, Ok b) ->
  profile_error do_photometry area_overlap self = (w, Ok [])
  /\ plot_err self ax kwargs0 = (w ++ [no_errors_warning], Ok None).
Proof.
  intros E Hb.
  pose proof (profile_error_without_error self w b E Hb) as H.
  split; [exact H|]. unfold plot_error. rewrite H.
  apply plot_error_on_empty.
Qed.

(** X6.  [plot_error] of an object whose [radius], [profile] and
    [profile_error] return, with errors: the errors are aligned with the
    profile, and the method makes one call of [fill_between], on the given
    axes (the current ones by default), with the radii, the lower edge
    [profile - profile_error], the upper edge [profile + profile_error]
    and the caller's keywords, preceded by the default [facecolor] unless
    the caller gave one; it returns what that call returns. *)
Theorem plot_error_band (self : ProfileBase) wr r wp p we pe ax kwargs0 :
  radius self = (wr, Ok r) ->
  profile do_photometry area_overlap self = (wp, Ok p) ->
  profile_error do_photometry area_overlap self = (we, Ok pe) ->
  pe <> [] ->
  NoDup (map fst kwargs0) ->
  List.length pe = List.length p
  /\ plot_err self ax kwargs0
     = (_ <- (we ++ wp ++ wr, Ok tt) ;;
        polycoll <- fill_between (match ax with None => gca | Some a => a end) r
                      (map (fun x => sub (fst x) (snd x)) (combine p pe))
                      (map (fun x => add (fst x) (snd x)) (combine p pe))
                      (facecolor_first kwargs0) ;;
        ret (Some polycoll)).
Proof.
  intros Hr Hp Hpe Hne ND.
  pose proof (profiles_aligned self wp p we pe Hp Hpe Hne) as L.
  split; [now symmetry|].
  unfold plot_error. rewrite Hr, Hp, Hpe.
  now apply plot_error_on_band.
Qed.

End PlotErrorFacts.

(** ** The bins of a radial profile without rounding *)

Section ExactRadialBins.
Local Open Scope Q_scope.
Variable do_photometry : @ProfileBase Q -> @aperture Q -> Q * Q.
Variable area_overlap : @ProfileBase Q -> @aperture Q -> Q.

(** Only the first boundary can be non-positive. *)
Lemma boundary_sign_exact (self : @ProfileBase Q) (b : list Q) :
  (forall i, (i < List.length b)%nat ->
     nth i b 0 == min_radius self - radius_step self / 2
                  + inject_Z (Z.of_nat i) * radius_step self) ->
  0 <= min_radius self -> 0 < radius_step self ->
  forall i, (i < List.length b)%nat ->
    (Qle_bool (nth i b 0) 0 = true
     <-> i = 0%nat /\ min_radius self <= radius_step self / 2).
Proof.
  intros Hib H0 H2 i Hi. rewrite Qle_bool_iff, (Hib i Hi).
  assert (Hh : radius_step self / 2 == radius_step self * (1 # 2)) by field.
  rewrite Hh. split.
  - intro Hle. destruct i as [|i].
    + split; [reflexivity|].
      change (inject_Z (Z.of_nat 0)) with 0 in Hle. lra.
    + exfalso.
      assert (1 <= inject_Z (Z.of_nat (S i))).
      { change 1 with (inject_Z 1). rewrite <- Zle_Qle. lia. }
      assert (0 <= (inject_Z (Z.of_nat (S i)) - 1) * radius_step self)
        by (apply Qmult_le_0_compat; lra).
      lra.
  - intros [-> Hm]. change (inject_Z (Z.of_nat 0)) with 0. lra.
Qed.

(** X7.  The bins of a valid [RadialProfile] in exact arithmetic are
    differences of circles: the area of bin [i] is the area of the circle
    of boundary [i + 1] minus that of the circle of boundary [i], and the
    profile value is the difference of their fluxes over the difference of
    their areas.  When [min_radius <= radius_step / 2] the first boundary
    is not positive and has no circle: the first bin is the whole circle
    of the second boundary. *)
Theorem radial_bins_exact (self : @ProfileBase Q) :
  cls self = RadialProfile ->
  0 <= min_radius self -> min_radius self < max_radius self ->
  0 < radius_step self ->
  let flux := fun r => fst (do_photometry self (Circle (xycen self) r)) in
  let covered := fun r => area_overlap self (Circle (xycen self) r) in
  exists b ws p a,
    _circular_radii self = ([], Ok b)
    /\ profile do_photometry area_overlap self = (ws, Ok p)
    /\ area do_photometry area_overlap self = ([], Ok a)
    /\ S (List.length p) = List.length b
    /\ List.length a = List.length p
    /\ (min_radius self <= radius_step self / 2 ->
          nth 0 a 0 == covered (nth 1 b 0)
          /\ nth 0 p 0 == flux (nth 1 b 0) / covered (nth 1 b 0))
    /\ (forall i, (i < List.length p)%nat ->
          ~ (i = 0%nat /\ min_radius self <= radius_step self / 2) ->
          nth i a 0 = covered (nth (S i) b 0) - covered (nth i b 0)
          /\ nth i p 0
             = (flux (nth (S i) b 0) - flux (nth i b 0))
               / (covered (nth (S i) b 0) - covered (nth i b 0))).
Proof.
  intros C H0 H1 H2 flux covered.
  destruct (circular_radii_exact self C H1 H2) as (b & Hb & Hlb & Hib).
  pose proof (boundary_sign_exact self b Hib H0 H2) as Hsign.
  pose proof (photometry_items do_photometry area_overlap self [] b Hb) as H.
  set (cf := map (fun r => fst (fst (measured_at do_photometry area_overlap self r))) b) in *.
  set (ca := map (fun r => snd (measured_at do_photometry area_overlap self r)) b) in *.
  destruct (radial_profile_values _ _ _ _ _ _ _ C H) as (ws & Hp & _).
  pose proof (radial_area _ _ _ _ _ _ _ C H) as Ha.
  assert (Lf : List.length cf = List.length b) by (unfold cf; now rewrite length_map).
  assert (La : List.length ca = List.length b) by (unfold ca; now rewrite length_map).
  assert (Ld : List.length (diff cf) = List.length (diff ca))
    by (rewrite !diff_length; lia).
  assert (Lq : List.length (quotients (diff cf) (diff ca)) = List.length (diff cf))
    by (now apply quotients_length).
  assert (Hcf : forall i, (i < List.length b)%nat ->
            nth i cf 0 = if Qle_bool (nth i b 0) 0 then 0 else flux (nth i b 0)).
  { intros i Hi. unfold cf. rewrite (nth_map_in _ b i 0) by exact Hi.
    unfold measured_at, circle_of. cbn [leb zero exact].
    now destruct (Qle_bool (nth i b 0) 0). }
  assert (Hca : forall i, (i < List.length b)%nat ->
            nth i ca 0 = if Qle_bool (nth i b 0) 0 then 0 else covered (nth i b 0)).
  { intros i Hi. unfold ca. rewrite (nth_map_in _ b i 0) by exact Hi.
    unfold measured_at, circle_of. cbn [leb zero exact].
    now destruct (Qle_bool (nth i b 0) 0). }
  assert (Hpos : forall i, (S i < List.length b)%nat ->
            Qle_bool (nth (S i) b 0) 0 = false).
  { intros i Hi. destruct (Qle_bool (nth (S i) b 0) 0) eqn:E; [|reflexivity].
    apply Hsign in E; [|exact Hi]. destruct E as [E _]. discriminate. }
  assert (Hbin : forall i, (i < List.length (diff cf))%nat ->
            nth i (diff ca) 0 = nth (S i) ca 0 - nth i ca 0
            /\ nth i (quotients (diff cf) (diff ca)) 0
               = (nth (S i) cf 0 - nth i cf 0) / (nth (S i) ca 0 - nth i ca 0)).
  { intros i Hi. split.
    - now rewrite diff_nth by (rewrite <- Ld; exact Hi).
    - rewrite (quotients_nth _ _ _ _ Ld Hi).
      now rewrite !diff_nth by (rewrite <- ?Ld; exact Hi). }
  exists b, ws, (quotients (diff cf) (diff ca)), (diff ca).
  split; [exact Hb|]. split; [exact Hp|]. split; [exact Ha|].
  rewrite Lq. rewrite diff_length in *.
  split; [lia|]. split; [lia|]. split.
  - intro Hm. destruct (Hbin 0%nat) as [E1 E2]; [lia|].
    rewrite E1, E2, !Hcf, !Hca by lia.
    rewrite (Hpos 0%nat) by lia.
    assert (E : Qle_bool (nth 0 b 0) 0 = true) by (apply Hsign; [lia|now split]).
    rewrite E. split; [ring|].
    assert (X : forall x y : Q, (x - 0) / (y - 0) == x / y).
    { intros x y. assert (Ex : x - 0 == x) by ring.
      assert (Ey : y - 0 == y) by ring. now rewrite Ex, Ey. }
    apply X.
  - intros i Hi Hn. destruct (Hbin i) as [E1 E2]; [lia|].
    rewrite E1, E2, !Hcf, !Hca by lia.
    rewrite (Hpos i) by lia.
    destruct (Qle_bool (nth i b 0) 0) eqn:E; [|now split].
    apply Hsign in E; [contradiction|lia].
Qed.

End ExactRadialBins.

(** * Non-finite numbers in binary64 *)

Section NonFinite.

Lemma b64_isnan_spec (x : float) : B64.isnan x = true <-> Prim2SF x = S754_nan.
Proof.
  unfold B64.isnan. destruct (Prim2SF x); split; congruence.
Qed.

Lemma b64_sub_nan (x y : float) :
  B64.isnan x || B64.isnan y = true -> B64.isnan (x - y) = true.
Proof.
  unfold B64.isnan. rewrite FloatAxioms.sub_spec.
  destruct (Prim2SF x) as [sx|sx| |sx mx ex], (Prim2SF y) as [sy|sy| |sy my ey];
    intro H; try discriminate H; try reflexivity.
Qed.

Lemma b64_add_nan (x y : float) :
  B64.isnan x || B64.isnan y = true -> B64.isnan (x + y) = true.
Proof.
  unfold B64.isnan. rewrite FloatAxioms.add_spec.
  destruct (Prim2SF x) as [sx|sx| |sx mx ex], (Prim2SF y) as [sy|sy| |sy my ey];
    intro H; try discriminate H; try reflexivity.
Qed.

Lemma b64_div_nan (x y : float) :
  B64.isnan x || B64.isnan y = true -> B64.isnan (x / y) = true.
Proof.
  unfold B64.isnan. rewrite FloatAxioms.div_spec.
  destruct (Prim2SF x) as [sx|sx| |sx mx ex], (Prim2SF y) as [sy|sy| |sy my ey];
    intro H; try discriminate H; try reflexivity.
Qed.

(** Every comparison with a NaN is false. *)
Lemma b64_compare_nan (x y : float) :
  B64.isnan x || B64.isnan y = true ->
  PrimFloat.ltb x y = false /\ PrimFloat.leb x y = false
  /\ PrimFloat.eqb x y = false.
Proof.
  unfold B64.isnan.
  rewrite FloatAxioms.ltb_spec, FloatAxioms.leb_spec, FloatAxioms.eqb_spec.
  unfold SFltb, SFleb, SFeqb.
  destruct (Prim2SF x) as [sx|sx| |sx mx ex], (Prim2SF y) as [sy|sy| |sy my ey];
    intro H; try discriminate H; repeat split; reflexivity.
Qed.

Lemma b64_floor_nan (x : float) :
  B64.isnan x = true ->
  B64.floor x = Raise (ValueError "cannot convert float NaN to integer").
Proof.
  intro H. apply b64_isnan_spec in H. unfold B64.floor. now rewrite H.
Qed.

End NonFinite.

(** ** An exception in the radii reaches every property *)

Section Raising.
Context {A : Type} {SA : Scalar A} {RA : Sqrt A}.
Variable do_photometry : @ProfileBase A -> @aperture A -> A * A.
Variable area_overlap : @ProfileBase A -> @aperture A -> A.

Lemma radius_raises (self : ProfileBase) (e : exn) :
  floor (div (sub (max_radius self) (min_radius self)) (radius_step self))
    = Raise e ->
  radius self = ([], Raise e).
Proof. intro H. unfold radius. now rewrite H. Qed.

Lemma radial_radii_raises (self : ProfileBase) (e : exn) :
  cls self = RadialProfile ->
  floor (div (sub (add (max_radius self) (div (radius_step self) (of_int 2)))
                  (sub (min_radius self) (div (radius_step self) (of_int 2))))
             (radius_step self))
    = Raise e ->
  _circular_radii self = ([], Raise e).
Proof. intros C H. unfold _circular_radii. rewrite C. cbv zeta. now rewrite H. Qed.

Lemma properties_raise (self : ProfileBase) (e : exn) :
  _circular_radii self = ([], Raise e) ->
  CurveOfGrowth_apertures self = ([], Raise e)
  /\ RadialProfile_apertures self = ([], Raise e)
  /\ profile do_photometry area_overlap self = ([], Raise e)
  /\ profile_error do_photometry area_overlap self = ([], Raise e)
  /\ area do_photometry area_overlap self = ([], Raise e).
Proof.
  intro H.
  assert (Ha : _circular_apertures self = ([], Raise e))
    by (unfold _circular_apertures; now rewrite H).
  assert (Hp : _photometry do_photometry area_overlap self = ([], Raise e))
    by (unfold _photometry; now rewrite Ha).
  split; [exact Ha|].
  split; [unfold RadialProfile_apertures; now rewrite H|].
  unfold profile, profile_error, area, _flux, _fluxerr. rewrite Hp.
  repeat split; destruct (cls self); try destruct (error self); reflexivity.
Qed.

End Raising.

(** ** NaN and infinity as radius parameters, on binary64 *)

Section NonFiniteParameters.
Variable do_photometry : @ProfileBase float -> @aperture float -> float * float.
Variable area_overlap : @ProfileBase float -> @aperture float -> float.

Lemma radius_nan_b64 (self : @ProfileBase float) :
  B64.isnan (min_radius self) || B64.isnan (max_radius self)
    || B64.isnan (radius_step self) = true ->
  radius self = ([], Raise nan_error).
Proof.
  intro H. apply radius_raises. cbn [floor div sub binary64].
  apply b64_floor_nan, b64_div_nan.
  destruct (B64.isnan (radius_step self)); [apply orb_true_r|].
  rewrite orb_false_r in *. rewrite b64_sub_nan; [reflexivity|].
  now rewrite orb_comm.
Qed.

Lemma circular_radii_nan_b64 (self : @ProfileBase float) :
  B64.isnan (min_radius self) || B64.isnan (max_radius self)
    || B64.isnan (radius_step self) = true ->
  _circular_radii self = ([], Raise nan_error).
Proof.
  intro H. destruct (cls self) eqn:C.
  - unfold _circular_radii. rewrite C. now apply radius_nan_b64.
  - apply radial_radii_raises; [exact C|]. cbn [floor div sub add of_int binary64].
    apply b64_floor_nan, b64_div_nan.
    destruct (B64.isnan (radius_step self)); [apply orb_true_r|].
    rewrite orb_false_r in *. rewrite b64_sub_nan; [reflexivity|].
    apply orb_true_iff in H as [H|H].
    + rewrite (b64_sub_nan (min_radius self)); [apply orb_true_r|now rewrite H].
    + rewrite (b64_add_nan (max_radius self)); [reflexivity|now rewrite H].
Qed.

(** X8.  On binary64, for an object whose [radius_step] passed the check
    of [__init__]: when [min_radius], [max_radius] or [radius_step] is a
    NaN, [radius] raises [ValueError] ('cannot convert float NaN to
    integer'), and so do, for either class, the apertures, [profile],
    [profile_error] and [area]. *)
Theorem nan_parameter_raises_b64 (self : @ProfileBase float) :
  (radius_step self <=? 0)%float = false ->
  B64.isnan (min_radius self) || B64.isnan (max_radius self)
    || B64.isnan (radius_step self) = true ->
  radius self = ([], Raise nan_error)
  /\ CurveOfGrowth_apertures self = ([], Raise nan_error)
  /\ RadialProfile_apertures self = ([], Raise nan_error)
  /\ profile do_photometry area_overlap self = ([], Raise nan_error)
  /\ profile_error do_photometry area_overlap self = ([], Raise nan_error)
  /\ area do_photometry area_overlap self = ([], Raise nan_error).
Proof.
  intros _ H. split; [now apply radius_nan_b64|].
  apply properties_raise. now apply circular_radii_nan_b64.
Qed.

(** X9.  On binary64, [__init__] does not reject a NaN [max_radius]: the
    two checks it takes part in are comparisons, false on a NaN.  With a
    [min_radius] and a [radius_step] that pass their own checks the object
    is built, and its [radius] raises [ValueError]. *)
Theorem init_accepts_nan_max_radius_b64
    (c : profile_class) (data0 : ndarray float) (xycen0 : float * float)
    (min_radius0 max_radius0 radius_step0 : float)
    (method0 : string) (subpixels0 : Z) :
  B64.isnan max_radius0 = true ->
  (min_radius0 <? 0)%float = false ->
  (radius_step0 <=? 0)%float = false ->
  exists self,
    init c data0 xycen0 min_radius0 max_radius0 radius_step0 None None
         method0 subpixels0 = ([], Ok self)
    /\ cls self = c /\ min_radius self = min_radius0
    /\ max_radius self = max_radius0 /\ radius_step self = radius_step0
    /\ radius self = ([], Raise nan_error).
Proof.
  intros Hn Hlo Hstep.
  destruct (b64_compare_nan max_radius0 0) as (L1 & _ & _); [now rewrite Hn|].
  destruct (b64_compare_nan max_radius0 min_radius0) as (_ & L2 & _);
    [now rewrite Hn|].
  eexists. split.
  - unfold init, process_quantities. cbn [fst snd option_map ltb leb zero binary64].
    rewrite Hlo, L1, L2, Hstep. cbn [orb]. reflexivity.
  - cbn [cls min_radius max_radius radius_step].
    repeat (split; [reflexivity|]).
    apply radius_nan_b64. cbn [min_radius max_radius radius_step].
    rewrite Hn. now rewrite orb_true_r.
Qed.


Lemma b64_add_nonfinite (x y : float) :
  nonfinite x = true -> nonfinite (x + y) = true.
Proof.
  unfold nonfinite, B64.isinf, B64.isnan. rewrite FloatAxioms.add_spec.
  destruct (Prim2SF x) as [sx|sx| |sx mx ex]; intro H; try discriminate H;
    [|reflexivity].
  destruct (Prim2SF y) as [sy|sy| |sy my ey]; try reflexivity.
  destruct sx, sy; reflexivity.
Qed.

Lemma b64_sub_nonfinite (x y : float) :
  nonfinite x = true -> nonfinite (x - y) = true.
Proof.
  unfold nonfinite, B64.isinf, B64.isnan. rewrite FloatAxioms.sub_spec.
  destruct (Prim2SF x) as [sx|sx| |sx mx ex]; intro H; try discriminate H;
    [|reflexivity].
  destruct (Prim2SF y) as [sy|sy| |sy my ey]; try reflexivity.
  destruct sx, sy; reflexivity.
Qed.

Lemma b64_div_nonfinite (x y : float) :
  nonfinite x = true -> nonfinite (x / y) = true.
Proof.
  unfold nonfinite, B64.isinf, B64.isnan. rewrite FloatAxioms.div_spec.
  destruct (Prim2SF x) as [sx|sx| |sx mx ex]; intro H; try discriminate H;
    [|reflexivity].
  destruct (Prim2SF y) as [sy|sy| |sy my ey]; reflexivity.
Qed.

Lemma b64_floor_nonfinite (x : float) :
  nonfinite x = true ->
  exists e, B64.floor x = Raise e /\ (e = overflow_error \/ e = nan_error).
Proof.
  unfold nonfinite, B64.isinf, B64.isnan, B64.floor.
  destruct (Prim2SF x) as [sx|sx| |sx mx ex]; intro H; try discriminate H;
    eexists; (split; [reflexivity|]); [now left|now right].
Qed.

(** With a [max_radius] that is not finite the radii are never built. *)
Lemma circular_radii_nonfinite_b64 (self : @ProfileBase float) :
  nonfinite (max_radius self) = true ->
  exists e, _circular_radii self = ([], Raise e)
            /\ (e = overflow_error \/ e = nan_error).
Proof.
  intro H. destruct (cls self) eqn:C.
  - destruct (b64_floor_nonfinite
                ((max_radius self - min_radius self) / radius_step self))
      as (e & He & Hk).
    { now apply b64_div_nonfinite, b64_sub_nonfinite. }
    exists e. split; [|exact Hk].
    unfold _circular_radii. rewrite C. now apply radius_raises.
  - destruct (b64_floor_nonfinite
                ((max_radius self + radius_step self / B64.of_int 2
                  - (min_radius self - radius_step self / B64.of_int 2))
                 / radius_step self))
      as (e & He & Hk).
    { now apply b64_div_nonfinite, b64_sub_nonfinite, b64_add_nonfinite. }
    exists e. split; [|exact Hk].
    now apply radial_radii_raises.
Qed.

Lemma b64_positive_finite (x : float) :
  (0 <? x)%float = true -> (x <? infinity)%float = true ->
  exists m e, Prim2SF x = S754_finite false m e.
Proof.
  rewrite !FloatAxioms.ltb_spec.
  change (Prim2SF 0) with (S754_zero false).
  change (Prim2SF infinity) with (S754_infinity false).
  unfold SFltb.
  destruct (Prim2SF x) as [sx|sx| |sx mx ex]; cbn [SFcompare];
    try discriminate.
  - destruct sx; discriminate.
  - destruct sx; [discriminate|]. intros _ _. now exists mx, ex.
Qed.

Lemma b64_nonnegative_finite (x : float) :
  (0 <=? x)%float = true -> (x <? infinity)%float = true ->
  (exists s, Prim2SF x = S754_zero s)
  \/ (exists m e, Prim2SF x = S754_finite false m e).
Proof.
  rewrite FloatAxioms.ltb_spec, FloatAxioms.leb_spec.
  change (Prim2SF 0) with (S754_zero false).
  change (Prim2SF infinity) with (S754_infinity false).
  unfold SFltb, SFleb.
  destruct (Prim2SF x) as [sx|sx| |sx mx ex]; cbn [SFcompare];
    try discriminate.
  - intros _ _. left. now exists sx.
  - destruct sx; discriminate.
  - destruct sx; [discriminate|]. intros _ _. right. now exists mx, ex.
Qed.

(** X10.  On binary64, [__init__] accepts [max_radius = inf] with a finite
    [min_radius >= 0] and a finite [radius_step > 0]: no check bounds
    [max_radius] from above.  [radius] of the object then raises
    [OverflowError] ('cannot convert float infinity to integer'), and for
    either class the radii of the circles, the apertures, [profile],
    [profile_error] and [area] raise too. *)
Theorem init_accepts_infinite_max_radius_b64
    (c : profile_class) (data0 : ndarray float) (xycen0 : float * float)
    (min_radius0 radius_step0 : float) (method0 : string) (subpixels0 : Z) :
  (0 <=? min_radius0)%float = true -> (min_radius0 <? infinity)%float = true ->
  (0 <? radius_step0)%float = true -> (radius_step0 <? infinity)%float = true ->
  exists self,
    init c data0 xycen0 min_radius0 infinity radius_step0 None None
         method0 subpixels0 = ([], Ok self)
    /\ cls self = c /\ max_radius self = infinity
    /\ radius self = ([], Raise overflow_error)
    /\ exists e,
         (e = overflow_error \/ e = nan_error)
         /\ _circular_radii self = ([], Raise e)
         /\ CurveOfGrowth_apertures self = ([], Raise e)
         /\ RadialProfile_apertures self = ([], Raise e)
         /\ profile do_photometry area_overlap self = ([], Raise e)
         /\ profile_error do_photometry area_overlap self = ([], Raise e)
         /\ area do_photometry area_overlap self = ([], Raise e).
Proof.
  intros Hlo0 Hlo1 Hs0 Hs1.
  destruct (b64_positive_finite _ Hs0 Hs1) as (ms & es & Es).
  pose proof (b64_nonnegative_finite _ Hlo0 Hlo1) as Elo.
  assert (L1 : (min_radius0 <? 0)%float = false).
  { rewrite FloatAxioms.ltb_spec. change (Prim2SF 0) with (S754_zero false).
    destruct Elo as [[s ->]|(m & e & ->)]; reflexivity. }
  assert (L2 : (infinity <=? min_radius0)%float = false).
  { rewrite FloatAxioms.leb_spec.
    change (Prim2SF infinity) with (S754_infinity false).
    destruct Elo as [[s ->]|(m & e & ->)]; reflexivity. }
  assert (L3 : (radius_step0 <=? 0)%float = false).
  { rewrite FloatAxioms.leb_spec, Es. reflexivity. }
  assert (Q : Prim2SF ((infinity - min_radius0) / radius_step0)
              = S754_infinity false).
  { rewrite FloatAxioms.div_spec, FloatAxioms.sub_spec, Es.
    change (Prim2SF infinity) with (S754_infinity false).
    destruct Elo as [[s ->]|(m & e & ->)]; reflexivity. }
  eexists. split.
  - unfold init, process_quantities. cbn [fst snd option_map ltb leb zero binary64].
    rewrite L1, L2, L3.
    change (infinity <? 0)%float with false. cbn [orb]. reflexivity.
  - cbn [cls max_radius]. split; [reflexivity|]. split; [reflexivity|]. split.
    + apply radius_raises.
      cbn [floor div sub binary64 min_radius max_radius radius_step].
      unfold B64.floor. now rewrite Q.
    + match goal with |- context [_circular_radii ?s] => set (self := s) end.
      destruct (circular_radii_nonfinite_b64 self) as (e & He & Hk);
        [reflexivity|].
      exists e. split; [exact Hk|]. split; [exact He|].
      now apply properties_raise.
Qed.

End NonFiniteParameters.

(** ** A NaN in the profile, on binary64 *)

Section NanProfile.





End NanProfile.

(** ** Normalizing twice, without rounding *)

Section ExactRenormalize.
Local Open Scope Q_scope.

Lemma map_div_div (l : list Q) (c c1 c2 : Q) :
  ~ c == 0 -> ~ c2 == 0 -> c1 == c2 / c ->
  Forall2 Qeq (map (fun v => v / c1) (map (fun v => v / c) l))
              (map (fun v => v / c2) l).
Proof.
  intros Hc H2 H1. induction l as [|y l IH]; constructor; [|exact IH].
  rewrite H1. field. split; assumption.
Qed.

(** X12.  In exact arithmetic, for a profile whose maximum and sum are
    both positive, the last normalization wins: [normalize('sum')] after
    [normalize('max')] gives the values of [normalize('sum')] alone, and
    [normalize('max')] after [normalize('sum')] those of
    [normalize('max')] alone, for [profile] and [profile_error]. *)
Theorem normalize_last_wins_exact (self : @cache Q) (x : Q) (l : list Q) :
  c_profile self = x :: l ->
  0 < fold_left maximum l x -> 0 < np_sum (c_profile self) ->
  exists by_max by_sum max_then_sum sum_then_max,
    normalize "max" self = ([], Ok by_max)
    /\ normalize "sum" self = ([], Ok by_sum)
    /\ normalize "sum" by_max = ([], Ok max_then_sum)
    /\ normalize "max" by_sum = ([], Ok sum_then_max)
    /\ Forall2 Qeq (c_profile max_then_sum) (c_profile by_sum)
    /\ Forall2 Qeq (c_profile_error max_then_sum) (c_profile_error by_sum)
    /\ Forall2 Qeq (c_profile sum_then_max) (c_profile by_max)
    /\ Forall2 Qeq (c_profile_error sum_then_max) (c_profile_error by_max).
Proof.
  intros Hp Hm Hs.
  set (m := fold_left maximum l x) in *. set (s := np_sum (c_profile self)) in *.
  pose proof (normalize_nonzero "max" self m (norm_max self x l Hp)
                (positive_not_zero m Hm)) as E1.
  pose proof (normalize_nonzero "sum" self s (norm_sum self)
                (positive_not_zero s Hs)) as E2.
  cbn [div exact] in E1, E2.
  set (by_max := {| c_profile := map (fun v => v / m) (c_profile self);
                    c_profile_error := map (fun v => v / m) (c_profile_error self) |})
    in *.
  set (by_sum := {| c_profile := map (fun v => v / s) (c_profile self);
                    c_profile_error := map (fun v => v / s) (c_profile_error self) |})
    in *.
  assert (Hs1 : np_sum (c_profile by_max) == s / m)
    by (apply np_sum_scale; lra).
  assert (Hm1 : fold_left maximum (map (fun v => v / s) l) (x / s) = m / s)
    by (now apply fold_maximum_scale).
  assert (P1 : 0 < s / m) by (apply Qlt_shift_div_l; lra).
  assert (P2 : 0 < m / s) by (apply Qlt_shift_div_l; lra).
  assert (P1' : 0 < np_sum (c_profile by_max)) by (rewrite Hs1; exact P1).
  pose proof (normalize_nonzero "sum" by_max _ (norm_sum by_max)
                (positive_not_zero _ P1')) as E3.
  assert (Hq : c_profile by_sum = x / s :: map (fun v => v / s) l)
    by (unfold by_sum; cbn [c_profile]; now rewrite Hp).
  assert (P2' : 0 < fold_left maximum (map (fun v => v / s) l) (x / s))
    by (rewrite Hm1; exact P2).
  pose proof (normalize_nonzero "max" by_sum _ (norm_max by_sum _ _ Hq)
                (positive_not_zero _ P2')) as E4.
  cbn [div exact] in E3, E4.
  do 4 eexists.
  split; [exact E1|]. split; [exact E2|]. split; [exact E3|]. split; [exact E4|].
  cbn [c_profile c_profile_error by_max by_sum].
  split; [apply map_div_div; [lra|lra|exact Hs1]|].
  split; [apply map_div_div; [lra|lra|exact Hs1]|].
  split; apply map_div_div; try lra; rewrite Hm1; reflexivity.
Qed.

End ExactRenormalize.

Section ExactNegative.
Local Open Scope Q_scope.

Lemma div_negative_ge (v c : Q) : c < 0 -> v <= c -> 1 <= v / c.
Proof.
  intros Hc Hv. assert (E : v / c == (- v) / (- c)) by (field; lra).
  rewrite E. apply Qle_shift_div_l; lra.
Qed.

Lemma div_negative_le (e c : Q) : c < 0 -> 0 <= e -> e / c <= 0.
Proof.
  intros Hc He. assert (E : e / c == (- e) / (- c)) by (field; lra).
  rewrite E. apply Qle_shift_div_r; lra.
Qed.

(** X13.  In exact arithmetic, a negative normalization constant (a
    profile whose maximum, or whose sum, is negative) is divided by like
    any other: errors that were not negative come out not positive; with
    'max' every value of the profile comes out at least 1 (the peak value
    1 is then the minimum), with 'sum' the sum comes out as 1. *)
Theorem normalize_negative_exact (method0 : string) (self : @cache Q) (c : Q) :
  normalization_of self method0 c -> c < 0 ->
  exists s1,
    normalize method0 self = ([], Ok s1)
    /\ (Forall (fun e => 0 <= e) (c_profile_error self) ->
        Forall (fun e => e <= 0) (c_profile_error s1))
    /\ (method0 = "max"%string -> Forall (fun v => 1 <= v) (c_profile s1))
    /\ (method0 = "sum"%string -> np_sum (c_profile s1) == 1).
Proof.
  intros Hn Hc.
  assert (Hz : Qeq_bool c 0 = false).
  { destruct (Qeq_bool c 0) eqn:E; [|reflexivity].
    apply Qeq_bool_iff in E. lra. }
  pose proof (normalize_nonzero method0 self c Hn Hz) as E1.
  cbn [div exact] in E1.
  eexists. split; [exact E1|]. cbn [c_profile c_profile_error].
  split; [|split].
  - intro He. apply Forall_forall. intros v Hv.
    apply in_map_iff in Hv as (u & <- & Hu).
    rewrite Forall_forall in He. apply div_negative_le; [exact Hc|now apply He].
  - intro Hm. destruct Hn as [x l Hp|]; [|discriminate Hm].
    destruct (fold_maximum_ge l x) as [G1 G2]. rewrite Forall_forall in G2.
    rewrite Hp. apply Forall_forall. intros v Hv.
    apply in_map_iff in Hv as (u & <- & Hu).
    apply div_negative_ge; [exact Hc|].
    destruct Hu as [<-|Hu]; [exact G1|now apply G2].
  - intro Hm. destruct Hn as [x l Hp|]; [discriminate Hm|].
    rewrite np_sum_scale by lra. field. lra.
Qed.

End ExactNegative.

(** ** The further properties applied to concrete inputs *)

Lemma curve_of_growth_aligned_witness :
  exists p pe a,
    profile Examples.flux_r2 Examples.area_r2
      (Examples.new_with_error CurveOfGrowth 0 2 1)%float = ([], Ok p)
    /\ profile_error Examples.flux_r2 Examples.area_r2
         (Examples.new_with_error CurveOfGrowth 0 2 1)%float = ([], Ok pe)
    /\ area Examples.flux_r2 Examples.area_r2
         (Examples.new_with_error CurveOfGrowth 0 2 1)%float = ([], Ok a)
    /\ List.length p = 3%nat /\ List.length pe = 3%nat /\ List.length a = 3%nat.
Proof.
  assert (Hr : radius (Examples.new_with_error CurveOfGrowth 0 2 1)%float
               = ([], Ok [0; 1; 2]%float)) by (vm_compute; reflexivity).
  destruct (curve_of_growth_aligned Examples.flux_r2 Examples.area_r2
              (Examples.new_with_error CurveOfGrowth 0 2 1)%float [] _
              eq_refl Hr)
    as (p & pe & a & Hp & Hpe & Ha & Lp & La & _ & Le).
  exists p, pe, a. split; [exact Hp|]. split; [exact Hpe|]. split; [exact Ha|].
  split; [exact Lp|]. split; [apply Le; discriminate|exact La].
Defined.

Lemma curve_of_growth_none_is_zero_witness :
  exists aps p a,
    CurveOfGrowth_apertures (Examples.new CurveOfGrowth 0 2 1)%float
      = ([], Ok aps)
    /\ profile Examples.flux_r2 Examples.area_r2
         (Examples.new CurveOfGrowth 0 2 1)%float = ([], Ok p)
    /\ area Examples.flux_r2 Examples.area_r2
         (Examples.new CurveOfGrowth 0 2 1)%float = ([], Ok a)
    /\ nth 0 aps None = None
    /\ nth 0 p 0%float = 0%float /\ nth 0 a 0%float = 0%float
    /\ nth 2 aps None = Some (Circle (0, 0) 2)%float.
Proof.
  assert (Hr : radius (Examples.new CurveOfGrowth 0 2 1)%float
               = ([], Ok [0; 1; 2]%float)) by (vm_compute; reflexivity).
  destruct (curve_of_growth_none_is_zero Examples.flux_r2 Examples.area_r2
              (Examples.new CurveOfGrowth 0 2 1)%float [] _ eq_refl Hr)
    as (aps & p & a & Ha & Hp & Har & _ & Hi).
  exists aps, p, a. split; [exact Ha|]. split; [exact Hp|]. split; [exact Har|].
  destruct (Hi 0%nat) as [H0 _]; [cbn; lia|].
  destruct (Hi 2%nat) as [_ H2]; [cbn; lia|].
  destruct H0 as (A0 & P0 & R0); [vm_compute; reflexivity|].
  destruct H2 as (A2 & _); [vm_compute; reflexivity|].
  split; [exact A0|]. split; [exact P0|]. split; [exact R0|exact A2].
Defined.

Lemma curve_of_growth_first_none_exact_witness :
  exists aps p,
    CurveOfGrowth_apertures (Examples.new CurveOfGrowth 0 3 1)%Q = ([], Ok aps)
    /\ profile Examples.flux_r2 Examples.area_r2
         (Examples.new CurveOfGrowth 0 3 1)%Q = ([], Ok p)
    /\ nth 0 aps None = None
    /\ nth 1 aps None <> None
    /\ nth 0 p 0%Q = 0%Q.
Proof.
  destruct (curve_of_growth_first_none_exact Examples.flux_r2 Examples.area_r2
              (Examples.new CurveOfGrowth 0 3 1)%Q)
    as (r & aps & p & a & Hr & Ha & Hp & _ & _ & Hi & H0).
  - reflexivity.
  - vm_compute; discriminate.
  - reflexivity.
  - reflexivity.
  - exists aps, p. split; [exact Ha|]. split; [exact Hp|].
    vm_compute in Hr. injection Hr as <-.
    split; [|split].
    + apply (Hi 0%nat); [cbn; lia|]. split; reflexivity.
    + intro N. apply (Hi 1%nat) in N; [|cbn; lia].
      destruct N as [N _]. discriminate N.
    + apply H0. reflexivity.
Defined.

Lemma radial_profile_aligned_exact_witness :
  exists r ws p ws' pe,
    radius (Examples.new_with_error RadialProfile 0 3 1)%Q = ([], Ok r)
    /\ profile Examples.flux_r2 Examples.area_r2
         (Examples.new_with_error RadialProfile 0 3 1)%Q = (ws, Ok p)
    /\ profile_error (RA := fun x => x) Examples.flux_r2 Examples.area_r2
         (Examples.new_with_error RadialProfile 0 3 1)%Q = (ws', Ok pe)
    /\ List.length p = List.length r
    /\ List.length pe = List.length r.
Proof.
  destruct (radial_profile_aligned_exact Examples.flux_r2 Examples.area_r2
              (fun x => x) (Examples.new_with_error RadialProfile 0 3 1)%Q)
    as (r & ws & p & a & ws' & pe & Hr & Hp & _ & Hpe & Lp & _ & Le & _).
  - reflexivity.
  - reflexivity.
  - reflexivity.
  - exists r, ws, p, ws', pe. split; [exact Hr|]. split; [exact Hp|].
    split; [exact Hpe|]. split; [exact Lp|]. apply Le. discriminate.
Defined.

Lemma plot_error_without_errors_witness :
  plot_error unit unit tt (fun _ _ _ _ _ => ret tt)
    Examples.flux_r2 Examples.area_capped Examples.rp None []
  = ([no_errors_warning], Ok None).
Proof.
  assert (Hb : _circular_radii Examples.rp = ([], Ok Examples.boundaries))
    by (vm_compute; reflexivity).
  exact (proj2 (plot_error_without_errors unit unit tt (fun _ _ _ _ _ => ret tt)
                  Examples.flux_r2 Examples.area_capped Examples.rp []
                  Examples.boundaries None [] eq_refl Hb)).
Defined.

Lemma plot_error_band_witness :
  plot_error unit (list float * list float * kwargs float) tt
    (fun _ _ ymin ymax kws => ret (ymin, ymax, kws))
    Examples.flux_r2 Examples.area_r2
    (Examples.new_with_error CurveOfGrowth 0 2 1)%float
    None [("color"%string, KStr "C0")]
  = ([], Ok (Some ([0; 0; 2]%float, [0; 2; 6]%float,
                   [("facecolor"%string, KTuple [0.5; 0.5; 0.5; 0.3]%float);
                    ("color"%string, KStr "C0")]))).
Proof.
  assert (Hr : radius (Examples.new_with_error CurveOfGrowth 0 2 1)%float
               = ([], Ok [0; 1; 2]%float)) by (vm_compute; reflexivity).
  assert (Hp : profile Examples.flux_r2 Examples.area_r2
                 (Examples.new_with_error CurveOfGrowth 0 2 1)%float
               = ([], Ok [0; 1; 4]%float)) by (vm_compute; reflexivity).
  assert (Hpe : profile_error Examples.flux_r2 Examples.area_r2
                  (Examples.new_with_error CurveOfGrowth 0 2 1)%float
                = ([], Ok [0; 1; 2]%float)) by (vm_compute; reflexivity).
  assert (ND : NoDup (map fst [("color"%string, KStr (A := float) "C0")])).
  { constructor; [simpl; tauto|constructor]. }
  etransitivity.
  - apply (proj2 (plot_error_band unit (list float * list float * kwargs float) tt
                    (fun _ _ ymin ymax kws => ret (ymin, ymax, kws))
                    Examples.flux_r2 Examples.area_r2
                    (Examples.new_with_error CurveOfGrowth 0 2 1)%float
                    [] _ [] _ [] _ None _ Hr Hp Hpe ltac:(discriminate) ND)).
  - vm_compute. reflexivity.
Defined.

Lemma radial_bins_exact_witness :
  exists b ws p a,
    _circular_radii Examples.rq = ([], Ok b)
    /\ profile Examples.flux_r2 Examples.area_r2 Examples.rq = (ws, Ok p)
    /\ area Examples.flux_r2 Examples.area_r2 Examples.rq = ([], Ok a)
    /\ (nth 0 a 0 == Examples.area_r2 Examples.rq (Circle (0, 0) (nth 1 b 0)))%Q.
Proof.
  destruct (radial_bins_exact Examples.flux_r2 Examples.area_r2 Examples.rq)
    as (b & ws & p & a & Hb & Hp & Ha & _ & _ & H0 & _).
  - reflexivity.
  - vm_compute; discriminate.
  - reflexivity.
  - reflexivity.
  - exists b, ws, p, a. split; [exact Hb|]. split; [exact Hp|].
    split; [exact Ha|]. apply H0. vm_compute; discriminate.
Defined.

Lemma nan_parameter_raises_b64_witness :
  radius (Examples.new RadialProfile 0 nan 1)%float = ([], Raise nan_error)
  /\ profile Examples.flux_r2 Examples.area_r2
       (Examples.new RadialProfile 0 nan 1)%float = ([], Raise nan_error).
Proof.
  assert (H1 : (radius_step (Examples.new RadialProfile 0 nan 1) <=? 0)%float
               = false) by (vm_compute; reflexivity).
  assert (H2 : B64.isnan (min_radius (Examples.new RadialProfile 0 nan 1)%float)
               || B64.isnan (max_radius (Examples.new RadialProfile 0 nan 1)%float)
               || B64.isnan (radius_step (Examples.new RadialProfile 0 nan 1)%float)
               = true) by (vm_compute; reflexivity).
  destruct (nan_parameter_raises_b64 Examples.flux_r2 Examples.area_r2
              (Examples.new RadialProfile 0 nan 1)%float H1 H2)
    as (Hr & _ & _ & Hp & _).
  split; [exact Hr|exact Hp].
Defined.

Lemma init_accepts_nan_max_radius_b64_witness :
  exists self,
    init CurveOfGrowth Examples.image (0, 0)%float 0%float nan 1%float
         None None "exact" 5 = ([], Ok self)
    /\ radius self = ([], Raise nan_error).
Proof.
  assert (H1 : B64.isnan nan = true) by (vm_compute; reflexivity).
  assert (H2 : (0 <? 0)%float = false) by (vm_compute; reflexivity).
  assert (H3 : (1 <=? 0)%float = false) by (vm_compute; reflexivity).
  destruct (init_accepts_nan_max_radius_b64 CurveOfGrowth Examples.image
              (0, 0)%float 0%float nan 1%float "exact" 5 H1 H2 H3)
    as (self & Hi & _ & _ & _ & _ & Hr).
  exists self. split; [exact Hi|exact Hr].
Defined.

Lemma init_accepts_infinite_max_radius_b64_witness :
  exists self,
    init RadialProfile Examples.image (0, 0)%float 0%float infinity 1%float
         None None "exact" 5 = ([], Ok self)
    /\ radius self = ([], Raise overflow_error)
    /\ exists e, profile Examples.flux_r2 Examples.area_r2 self = ([], Raise e).
Proof.
  assert (H1 : (0 <=? 0)%float = true) by (vm_compute; reflexivity).
  assert (H2 : (0 <? infinity)%float = true) by (vm_compute; reflexivity).
  assert (H3 : (0 <? 1)%float = true) by (vm_compute; reflexivity).
  assert (H4 : (1 <? infinity)%float = true) by (vm_compute; reflexivity).
  destruct (init_accepts_infinite_max_radius_b64
              Examples.flux_r2 Examples.area_r2 RadialProfile Examples.image
              (0, 0)%float 0%float 1%float "exact" 5 H1 H2 H3 H4)
    as (self & Hi & _ & _ & Hr & e & _ & _ & _ & _ & Hp & _).
  exists self. split; [exact Hi|]. split; [exact Hr|].
  exists e. exact Hp.
Defined.


Lemma normalize_last_wins_exact_witness :
  exists by_sum by_max max_then_sum,
    normalize "sum" {| c_profile := [1; 4; 2]%Q; c_profile_error := [1; 1; 1]%Q |}
      = ([], Ok by_sum)
    /\ normalize "max" {| c_profile := [1; 4; 2]%Q; c_profile_error := [1; 1; 1]%Q |}
       = ([], Ok by_max)
    /\ normalize "sum" by_max = ([], Ok max_then_sum)
    /\ Forall2 Qeq (c_profile max_then_sum) (c_profile by_sum).
Proof.
  destruct (normalize_last_wins_exact
              {| c_profile := [1; 4; 2]%Q; c_profile_error := [1; 1; 1]%Q |}
              1%Q [4; 2]%Q eq_refl)
    as (by_max & by_sum & ms & sm & H1 & H2 & H3 & _ & H5 & _).
  - reflexivity.
  - reflexivity.
  - exists by_sum, by_max, ms. split; [exact H2|]. split; [exact H1|].
    split; [exact H3|exact H5].
Defined.

Lemma normalize_negative_exact_witness :
  exists s1,
    normalize "max" {| c_profile := [-4; -2]%Q; c_profile_error := [1; 1]%Q |}
      = ([], Ok s1)
    /\ Forall (fun e => e <= 0)%Q (c_profile_error s1)
    /\ Forall (fun v => 1 <= v)%Q (c_profile s1).
Proof.
  destruct (normalize_negative_exact "max"
              {| c_profile := [-4; -2]%Q; c_profile_error := [1; 1]%Q |}
              (fold_left maximum [(-2)%Q] (-4)%Q)
              (norm_max {| c_profile := [-4; -2]%Q; c_profile_error := [1; 1]%Q |}
                        (-4)%Q [(-2)%Q] eq_refl))
    as (s1 & Hn & He & Hm & _).
  - reflexivity.
  - exists s1. split; [exact Hn|]. split.
    + apply He. repeat constructor; vm_compute; discriminate.
    + apply Hm. reflexivity.
Defined.

Lemma boundaries_and_midpoints_exact_witness :
  exists r b,
    radius Examples.rq = ([], Ok r) /\ _circular_radii Examples.rq = ([], Ok b)
    /\ List.length b = S (List.length r)
    /\ (nth 0 r 0 == (nth 0 b 0 + nth 1 b 0) / 2)%Q.
Proof.
  destruct (boundaries_and_midpoints_exact Examples.rq)
    as (r & b & Hr & Hb & Hl & Hi).
  - reflexivity.
  - reflexivity.
  - reflexivity.
  - exists r, b. split; [exact Hr|]. split; [exact Hb|]. split; [exact Hl|].
    apply Hi. vm_compute in Hr. injection Hr as <-. cbn. lia.
Defined.

Lemma radius_shape_witness :
  exists r,
    radius (Examples.new CurveOfGrowth 0 1.7 0.1)%float = ([], Ok r)
    /\ List.length r = 18%nat
    /\ last r 0%float = (0 + B64.of_int 17 * 0.1)%float.
Proof.
  assert (Hf : floor (div (sub (max_radius (Examples.new CurveOfGrowth 0 1.7 0.1)%float)
                               (min_radius (Examples.new CurveOfGrowth 0 1.7 0.1)%float))
                          (radius_step (Examples.new CurveOfGrowth 0 1.7 0.1)%float))
               = Ok 17%Z) by (vm_compute; reflexivity).
  destruct (radius_shape (Examples.new CurveOfGrowth 0 1.7 0.1)%float 17 Hf)
    as (r & Hr & Hl & Hlast).
  - lia.
  - exists r. split; [exact Hr|]. split; [exact Hl|]. apply Hlast. lia.
Defined.
